(** * pikaraoke/lib/ffmpeg.py: the transcode planner [build_ffmpeg_cmd]

    A shallow embedding of the planner and of the fragments of the Python
    runtime and of the ffmpeg-python stream graph it touches, followed by the
    properties of the plan it returns.

    Conventions.
    - Python [float] is IEEE 754 binary64, carried by Rocq's primitive
      [float]; [int] is [Z]; [str] is [string] (ASCII text), except for
      the text a [bytes.decode()] returns, which is the list of its code
      points; [bytes] is [string] too, one character per byte.
    - A raised exception is the [Raise] outcome of [result]; code that talks
      to the operating system runs in [io], which also records what was
      spawned.
    - The C library's [pow] is kept as a call; module [Ideal] reads floats
      and that call as real numbers.
    - [logging.info] calls and the [output.get_args()] call, whose value is
      only logged, are left out. *)

From Stdlib Require Import ZArith Bool List String Ascii Lia.
From Stdlib Require Import Reals Lra.
From Stdlib Require Import DecimalString.
From Stdlib Require Import Floats.PrimFloat Floats.SpecFloat Floats.FloatOps.
From Stdlib Require Import Floats.FloatAxioms.
Import ListNotations.

Set Warnings "-register-all".

Local Open Scope string_scope.
Local Open Scope list_scope.
Local Open Scope Z_scope.

(** ** Exceptions and outcomes *)

Inductive exn : Set :=
| ValueError
| TypeError
| OverflowError
| ZeroDivisionError
| FileNotFoundError
| IndexError
| PermissionError
| UnicodeDecodeError.

Inductive result (A : Type) : Type :=
| Ok (a : A)
| Raise (e : exn).

Arguments Ok {A} a.
Arguments Raise {A} e.

Definition rbind {A B} (r : result A) (k : A -> result B) : result B :=
  match r with
  | Ok a => k a
  | Raise e => Raise e
  end.

Notation "x <-? r ;; k" := (rbind r (fun x => k))
  (at level 61, r at next level, right associativity).
Notation "' p <-? r ;; k" := (rbind r (fun x => match x with p => k end))
  (at level 61, p pattern, r at next level, right associativity).

(** [try: ... except Exception: ...] around a pure computation. *)
Definition rcatch {A} (r : result A) (handler : A) : A :=
  match r with
  | Ok a => a
  | Raise _ => handler
  end.

(** ** Python floats *)

Module PyFloat.

(** Comparison as IEEE 754 specifies it: nothing compares with NaN, and
    the two zeros are equal. *)
Definition cmp (x y : float) : option comparison :=
  SFcompare (Prim2SF x) (Prim2SF y).

Definition lt (x y : float) : bool :=
  match cmp x y with Some Lt => true | _ => false end.

Definition eq (x y : float) : bool :=
  match cmp x y with Some Eq => true | _ => false end.

(** [x != y] *)
Definition ne (x y : float) : bool := negb (eq x y).

Definition is_nan (x : float) : bool :=
  match Prim2SF x with S754_nan => true | _ => false end.

(** Neither an infinity nor NaN. *)
Definition finite (x : float) : bool :=
  match Prim2SF x with
  | S754_zero _ | S754_finite _ _ _ => true
  | S754_infinity _ | S754_nan => false
  end.

Definition Z2SF (z : Z) : spec_float :=
  match z with
  | Z0 => S754_zero false
  | Zpos p => S754_finite false p 0
  | Zneg p => S754_finite true p 0
  end.

(** [float(z)] for an [int]: round to nearest, ties to even;
    [OverflowError] when the rounded value does not fit. *)
Definition of_int (z : Z) : result float :=
  match binary_normalize prec emax z 0 false with
  | S754_infinity _ => Raise OverflowError
  | f => Ok (SF2Prim f)
  end.

(** [a / b] on two [int]s: the correctly rounded quotient. *)
Definition truediv (a b : Z) : result float :=
  if b =? 0 then Raise ZeroDivisionError
  else match SFdiv prec emax (Z2SF a) (Z2SF b) with
       | S754_infinity _ => Raise OverflowError
       | q => Ok (SF2Prim q)
       end.

(** [int(x)]: truncation toward zero. *)
Definition to_int (x : float) : result Z :=
  match Prim2SF x with
  | S754_nan => Raise ValueError
  | S754_infinity _ => Raise OverflowError
  | S754_zero _ => Ok 0
  | S754_finite s m e =>
      let a := Z.shiftl (Zpos m) e in
      Ok (if s then - a else a)
  end.

(** A float object held by the planner: a binary64 datum, or the double
    that the C library's [pow] returns on the given arguments.  [pow] is
    not one of IEEE 754's correctly rounded operations, so the call is
    kept as it is; [Ideal.value] below reads it as a real number. *)
Inductive t : Set :=
| Double (f : float)
| LibmPow (x y : float).

(** [2 ** y] (float_pow in CPython's floatobject.c, for the base 2.0):
    a zero exponent gives 1.0 without calling the C library, a NaN or
    infinite exponent is answered directly, and a finite result of [pow]
    is returned while an infinite one raises [OverflowError].  2^y
    exceeds the binary64 range exactly for y >= 1024. *)
Definition pow2 (y : float) : result t :=
  match Prim2SF y with
  | S754_zero _ => Ok (Double 1)
  | S754_nan => Ok (Double nan)
  | S754_infinity s => Ok (Double (if s then 0 else infinity))
  | S754_finite _ _ _ =>
      if lt y 1024 then Ok (LibmPow 2 y) else Raise OverflowError
  end.

End PyFloat.

(** ** [float(str)] *)

Module FloatLiteral.

Definition is_space (c : ascii) : bool :=
  let n := nat_of_ascii c in
  ((9 <=? n) && (n <=? 13))%nat || (n =? 32)%nat.

Definition digit (c : ascii) : option Z :=
  let n := nat_of_ascii c in
  if ((48 <=? n) && (n <=? 57))%nat then Some (Z.of_nat n - 48) else None.

Definition is_digit (c : ascii) : bool :=
  match digit c with Some _ => true | None => false end.

Definition lower (c : ascii) : ascii :=
  let n := nat_of_ascii c in
  if ((65 <=? n) && (n <=? 90))%nat then ascii_of_nat (n + 32) else c.

Fixpoint lstrip (s : list ascii) : list ascii :=
  match s with
  | c :: r => if is_space c then lstrip r else s
  | [] => []
  end.

Definition strip (s : list ascii) : list ascii :=
  rev (lstrip (rev (lstrip s))).

(** An underscore is allowed only between two digits. *)
Fixpoint underscores_ok (prev : option ascii) (s : list ascii) : bool :=
  match s with
  | [] => true
  | c :: r =>
      if Ascii.eqb c "_" then
        match prev, r with
        | Some p, n :: _ => is_digit p && is_digit n && underscores_ok (Some c) r
        | _, _ => false
        end
      else underscores_ok (Some c) r
  end.

Definition drop_underscores (s : list ascii) : list ascii :=
  filter (fun c => negb (Ascii.eqb c "_")) s.

(** The longest prefix of digits, as (value, number of digits, rest). *)
Fixpoint digits (acc : Z) (n : Z) (s : list ascii) : Z * Z * list ascii :=
  match s with
  | c :: r =>
      match digit c with
      | Some d => digits (10 * acc + d) (n + 1) r
      | None => (acc, n, s)
      end
  | [] => (acc, n, [])
  end.

Definition sign (s : list ascii) : bool * list ascii :=
  match s with
  | "-"%char :: r => (true, r)
  | "+"%char :: r => (false, r)
  | _ => (false, s)
  end.

(** The exponent part: [e] or [E], an optional sign, at least one digit. *)
Definition exponent (s : list ascii) : option Z :=
  match s with
  | [] => Some 0
  | c :: r =>
      if Ascii.eqb (lower c) "e" then
        let '(neg, r) := sign r in
        let '(e, n, rest) := digits 0 0 r in
        match rest with
        | [] => if 0 <? n then Some (if neg then - e else e) else None
        | _ :: _ => None
        end
      else None
  end.

(** The binary64 nearest to [(-1)^neg * m * 10^k]. *)
Definition decimal (neg : bool) (m k : Z) : float :=
  match m with
  | Zpos p =>
      SF2Prim
        (if 0 <=? k
         then binary_normalize prec emax (if neg then - (m * 10 ^ k) else m * 10 ^ k) 0 false
         else SFdiv prec emax (S754_finite neg p 0) (PyFloat.Z2SF (10 ^ (- k))))
  | _ => if neg then neg_zero else zero
  end.

Definition number (neg : bool) (s : list ascii) : option float :=
  let '(ip, ni, r) := digits 0 0 s in
  let '(fp, nf, r) :=
    match r with
    | "."%char :: r' => digits ip 0 r'
    | _ => (ip, 0, r)
    end in
  if 0 <? ni + nf then
    match exponent r with
    | Some e => Some (decimal neg fp (e - nf))
    | None => None
    end
  else None.

Definition special (neg : bool) (s : list ascii) : option float :=
  let w := string_of_list_ascii (map lower s) in
  if String.eqb w "inf" || String.eqb w "infinity"
  then Some (if neg then neg_infinity else infinity)
  else if String.eqb w "nan" then Some nan
  else None.

(** [float(s)] for a [str]: surrounding white space is dropped, digits may
    be grouped by single underscores, and the text is a decimal literal
    or one of inf, infinity, nan, with an optional sign. *)
Definition parse (s : string) : result float :=
  let l := list_ascii_of_string s in
  if underscores_ok None l then
    let '(neg, body) := sign (strip (drop_underscores l)) in
    match special neg body with
    | Some f => Ok f
    | None =>
        match number neg body with
        | Some f => Ok f
        | None => Raise ValueError
        end
    end
  else Raise ValueError.

End FloatLiteral.

(** ** Python values reaching [float(...)] *)

Inductive pyval : Type :=
| PyNone
| PyBool (b : bool)
| PyInt (z : Z)
| PyFloat (f : float)
| PyStr (s : string).

(** [float(v)] *)
Definition py_float (v : pyval) : result float :=
  match v with
  | PyNone => Raise TypeError
  | PyBool b => Ok (if b then 1 else 0)%float
  | PyInt z => PyFloat.of_int z
  | PyFloat f => Ok f
  | PyStr s => FloatLiteral.parse s
  end.

(** [f"{z}"] for an [int]. *)
Definition str_of_int (z : Z) : string :=
  NilZero.string_of_int (Z.to_int z).

(** ** The operating system, as the planner meets it *)

(** What [io] code did to the outside world. *)
Inductive event : Type :=
| Spawn (argv : list string).

(** [run argv]: what [subprocess.run(argv, ...)] does as this module calls
    it: the exception raised when the process cannot be started, and
    otherwise the captured standard output, which is the bytes written under
    [capture_output=True] and the text under [text=True]. *)
Record world : Type := {
  run : list string -> result string
}.

Definition io (A : Type) : Type := world -> list event * result A.

Definition ret {A} (a : A) : io A := fun _ => ([], Ok a).

Definition bind {A B} (m : io A) (k : A -> io B) : io B :=
  fun w =>
    let '(t1, r) := m w in
    match r with
    | Ok a => let '(t2, r') := k a w in (t1 ++ t2, r')
    | Raise e => (t1, Raise e)
    end.

Definition lift {A} (r : result A) : io A := fun _ => ([], r).

(** [try: body except <classes>: handler] *)
Definition try {A} (body : io A) (catches : exn -> bool) (handler : io A) : io A :=
  fun w =>
    let '(t1, r) := body w in
    match r with
    | Ok a => (t1, Ok a)
    | Raise e =>
        if catches e then let '(t2, r') := handler w in (t1 ++ t2, r')
        else (t1, Raise e)
    end.

Notation "x <- m ;; k" := (bind m (fun x => k))
  (at level 61, m at next level, right associativity).
Notation "' p <- m ;; k" := (bind m (fun x => match x with p => k end))
  (at level 61, p pattern, m at next level, right associativity).

Definition subprocess_run (argv : list string) : io string :=
  fun w => ([Spawn argv], run w argv).

(** The numbers of the characters of [s]: the bytes of a [bytes] object,
    the code points of an ASCII text. *)
Definition ords (s : string) : list N :=
  map N_of_ascii (list_ascii_of_string s).

(** ** [bytes.decode()] *)

Module Utf8.

(** The bytes 0x80 to 0xBF. *)
Definition continuation (b : N) : bool := ((128 <=? b) && (b <=? 191))%N.

(** The strict UTF-8 decoder: the code points of the text, or
    UnicodeDecodeError at a byte that starts no character, at a missing or
    wrong continuation byte, and at the encoding of an overlong form, of a
    surrogate or of a number above 0x10FFFF. *)
Fixpoint decode (bs : list N) : result (list N) :=
  match bs with
  | [] => Ok []
  | b :: r =>
      if (b <? 128)%N then
        t <-? decode r ;; Ok (b :: t)
      else if (b <? 194)%N then Raise UnicodeDecodeError
      else if (b <? 224)%N then
        match r with
        | b2 :: r2 =>
            if continuation b2
            then t <-? decode r2 ;; Ok (((b - 192) * 64 + (b2 - 128))%N :: t)
            else Raise UnicodeDecodeError
        | _ => Raise UnicodeDecodeError
        end
      else if (b <? 240)%N then
        match r with
        | b2 :: b3 :: r3 =>
            if continuation b2 && continuation b3
               && negb ((b =? 224)%N && (b2 <? 160)%N)
               && negb ((b =? 237)%N && (160 <=? b2)%N)
            then t <-? decode r3 ;;
                 Ok (((b - 224) * 4096 + (b2 - 128) * 64 + (b3 - 128))%N :: t)
            else Raise UnicodeDecodeError
        | _ => Raise UnicodeDecodeError
        end
      else if (b <? 245)%N then
        match r with
        | b2 :: b3 :: b4 :: r4 =>
            if continuation b2 && continuation b3 && continuation b4
               && negb ((b =? 240)%N && (b2 <? 144)%N)
               && negb ((b =? 244)%N && (144 <=? b2)%N)
            then t <-? decode r4 ;;
                 Ok (((b - 240) * 262144 + (b2 - 128) * 4096
                      + (b3 - 128) * 64 + (b4 - 128))%N :: t)
            else Raise UnicodeDecodeError
        | _ => Raise UnicodeDecodeError
        end
      else Raise UnicodeDecodeError
  end.

End Utf8.

(** [b.decode()] *)
Definition decode (b : string) : result (list N) := Utf8.decode (ords b).

Fixpoint starts_with (needle haystack : list N) : bool :=
  match needle, haystack with
  | [], _ => true
  | x :: n, y :: h => (x =? y)%N && starts_with n h
  | _ :: _, [] => false
  end.

Fixpoint substring (needle haystack : list N) : bool :=
  starts_with needle haystack
  || match haystack with
     | [] => false
     | _ :: r => substring needle r
     end.

(** [needle in haystack], for an ASCII [needle] *)
Definition contains (needle : string) (haystack : list N) : bool :=
  substring (ords needle) haystack.

Definition is_exn (e e' : exn) : bool :=
  match e, e' with
  | ValueError, ValueError | TypeError, TypeError
  | OverflowError, OverflowError | ZeroDivisionError, ZeroDivisionError
  | FileNotFoundError, FileNotFoundError | IndexError, IndexError
  | PermissionError, PermissionError
  | UnicodeDecodeError, UnicodeDecodeError => true
  | _, _ => false
  end.

(** Every exception of the model derives from [Exception]. *)
Definition Exception (e : exn) : bool := true.

(** ** ffmpeg-python: streams and nodes *)

Module Ffmpeg.

(** A positional or keyword argument of a node. [AFormat f] is the text
    [f"{f}"] of a float. *)
Inductive arg : Type :=
| ANone
| AInt (z : Z)
| AStr (s : string)
| AFloat (f : PyFloat.t)
| AFormat (f : float).

Definition kwargs : Type := list (string * arg).

(** An outgoing stream of an input node or of a filter node, with the
    selector put on it, if any. *)
Inductive stream : Type :=
| InputStream (filename : string) (kw : kwargs) (selector : option string)
| FilterStream (upstream : list stream) (name : string) (args : list arg)
    (kw : kwargs) (selector : option string).

(** The stream of an output node. *)
Record output_stream : Type := Output {
  streams : list stream;
  filename : string;
  options : kwargs
}.

Definition selector (s : stream) : option string :=
  match s with
  | InputStream _ _ sel | FilterStream _ _ _ _ sel => sel
  end.

Definition select (s : stream) (sel : string) : stream :=
  match s with
  | InputStream f kw _ => InputStream f kw (Some sel)
  | FilterStream up n a kw _ => FilterStream up n a kw (Some sel)
  end.

(** [ffmpeg.input(filename, **kw)] *)
Definition input (filename : string) (kw : kwargs) : stream :=
  InputStream filename kw None.

(** [s[spec]] for a string [spec]: the stream with that selector, refused
    only on a stream that has a selector already.  The library opens no
    file here: whether the file has such a stream shows when ffmpeg runs. *)
Definition getitem (s : stream) (spec : string) : io stream :=
  lift (match selector s with
        | Some _ => Raise ValueError
        | None => Ok (select s spec)
        end).

(** [s.audio] and [s.video] *)
Definition audio (s : stream) : stream := select s "a".
Definition video (s : stream) : stream := select s "v".

(** [s.filter(name, *args, **kw)] *)
Definition filter (s : stream) (name : string) (args : list arg) (kw : kwargs) : stream :=
  FilterStream [s] name args kw None.

(** [ffmpeg.filter([s1, ..., sn], name, *args, **kw)] *)
Definition filter_multi (ss : list stream) (name : string) (args : list arg) (kw : kwargs) : stream :=
  FilterStream ss name args kw None.

(** [ffmpeg.output(s1, ..., sn, filename, **kw)] *)
Definition output (ss : list stream) (filename : string) (kw : kwargs) : output_stream :=
  Output ss filename kw.

Fixpoint lookup (k : string) (kw : kwargs) : option arg :=
  match kw with
  | [] => None
  | (k', v) :: r => if String.eqb k k' then Some v else lookup k r
  end.

(** The streams a stream is computed from, itself included. *)
Fixpoint ancestors (s : stream) : list stream :=
  s :: match s with
       | InputStream _ _ _ => []
       | FilterStream up _ _ _ _ => flat_map ancestors up
       end.

(** The filter nodes of that name among a stream's ancestors. *)
Definition is_filter (name : string) (s : stream) : bool :=
  match s with
  | FilterStream _ n _ _ _ => String.eqb n name
  | InputStream _ _ _ => false
  end.

Definition nodes (name : string) (s : stream) : list stream :=
  List.filter (is_filter name) (ancestors s).

(** The input streams a stream is computed from. *)
Definition is_input (s : stream) : bool :=
  match s with
  | InputStream _ _ _ => true
  | FilterStream _ _ _ _ _ => false
  end.

Definition inputs (s : stream) : list stream :=
  List.filter is_input (ancestors s).

End Ffmpeg.

(** ** Strings, lists and parsed JSON *)

Definition newline : ascii := "010"%char.
Definition space : ascii := " "%char.

(** [s.split(sep)] for a separator of one character. *)
Fixpoint split (sep : ascii) (s : string) : list string :=
  match s with
  | EmptyString => [EmptyString]
  | String c r =>
      if Ascii.eqb c sep then EmptyString :: split sep r
      else match split sep r with
           | field :: fields => String c field :: fields
           | [] => [String c EmptyString]
           end
  end.

(** [l[i]] for an index that is not negative. *)
Definition item {A} (l : list A) (i : nat) : result A :=
  match nth_error l i with
  | Some x => Ok x
  | None => Raise IndexError
  end.

(** The integer nearest to [m / d], the even one of two that are equally
    near. *)
Definition nearest (m d : Z) : Z :=
  let q := m / d in
  match 2 * (m mod d) ?= d with
  | Lt => q
  | Gt => q + 1
  | Eq => if Z.even q then q else q + 1
  end.

(** The integer nearest to [m * 2 ^ e]. *)
Definition round_dyadic (m e : Z) : Z :=
  if 0 <=? e then m * 2 ^ e else nearest m (2 ^ (- e)).

(** [round(x)]: the nearest integer, the even one of two that are equally
    near. *)
Definition py_round (x : float) : result Z :=
  match Prim2SF x with
  | S754_nan => Raise ValueError
  | S754_infinity _ => Raise OverflowError
  | S754_zero _ => Ok 0
  | S754_finite s m e =>
      let n := round_dyadic (Zpos m) e in
      Ok (if s then - n else n)
  end.

(** What [json.loads] builds; the items of a dict carry distinct keys. *)
Inductive pyobj : Type :=
| PVal (v : pyval)
| PList (l : list pyobj)
| PDict (items : list (string * pyobj)).

Fixpoint dict_get (key : string) (items : list (string * pyobj)) : option pyobj :=
  match items with
  | [] => None
  | (k, v) :: r => if String.eqb key k then Some v else dict_get key r
  end.

(** [o[key]] for a [str] key, [None] when it raises: KeyError on a dict
    without the key, TypeError on anything that is not a dict. *)
Definition subscript (o : pyobj) (key : string) : option pyobj :=
  match o with
  | PDict items => dict_get key items
  | PVal _ | PList _ => None
  end.

(** [float(o)] *)
Definition float_of_obj (o : pyobj) : result float :=
  match o with
  | PVal v => py_float v
  | PList _ | PDict _ => Raise TypeError
  end.

(** [try: body except c1: h1 except c2: h2 ...]: the first clause that
    matches handles the exception. *)
Fixpoint dispatch {A} (e : exn) (handlers : list ((exn -> bool) * io A)) : io A :=
  match handlers with
  | [] => lift (Raise e)
  | (catches, handler) :: rest => if catches e then handler else dispatch e rest
  end.

Definition try_except {A} (body : io A) (handlers : list ((exn -> bool) * io A)) : io A :=
  fun w =>
    let '(t1, r) := body w in
    match r with
    | Ok a => (t1, Ok a)
    | Raise e => let '(t2, r') := dispatch e handlers w in (t1 ++ t2, r')
    end.

(** ** pikaraoke/lib/ffmpeg.py *)

Import Ffmpeg.

(** The attributes of the [fr] argument that the planner reads. *)
Record file_resolver : Type := {
  file_path : string;
  file_extension : string;
  cdg_file_path : option string;
  output_file : string
}.

(** [is_transpose_enabled()] *)
Definition is_transpose_enabled : io bool :=
  r <- try (filters <- subprocess_run ["ffmpeg"; "-filters"] ;; ret (Some filters))
         (fun e => is_exn e FileNotFoundError || is_exn e IndexError)
         (ret None) ;;
  match r with
  | None => ret false
  | Some filters =>
      text <- lift (decode filters) ;;
      ret (contains "rubberband" text)
  end.

(** [supports_hardware_h264_encoding()] *)
Definition supports_hardware_h264_encoding : io bool :=
  r <- try (codecs <- subprocess_run ["ffmpeg"; "-codecs"] ;; ret (Some codecs))
         (fun e => is_exn e FileNotFoundError || is_exn e IndexError)
         (ret None) ;;
  match r with
  | None => ret false
  | Some codecs =>
      text <- lift (decode codecs) ;;
      ret (contains "h264_v4l2m2m" text)
  end.

(** Lines 44-49: the two audio roles, (orig_audio, proc_audio). *)
Definition select_audio (input : stream) : io (stream * stream) :=
  try (orig_audio <- getitem input "a:0" ;;
       proc_audio <- getitem input "a:1" ;;
       ret (orig_audio, proc_audio))
    Exception
    (ret (audio input, audio input)).

(** The audio locals when line 90 is reached. *)
Record audio_locals : Type := {
  orig_audio : stream;
  proc_audio : stream;
  audio_out : stream
}.

(** Lines 51-88. [avsync] is already the float of line 25. *)
Definition mix_audio (semitones : Z) (normalize_audio : bool) (avsync : float)
    (original_sound : bool) (original_sound_volume : pyval)
    (orig_audio proc_audio : stream) : result audio_locals :=
  let is_transposed := negb (semitones =? 0) in
  let needs_processing := is_transposed || normalize_audio || PyFloat.ne avsync 0 in
  if negb needs_processing && negb original_sound then
    Ok {| orig_audio := orig_audio; proc_audio := proc_audio; audio_out := proc_audio |}
  else
    '(proc_audio, orig_audio) <-?
      (if PyFloat.lt 0 avsync then
         delay_ms <-? PyFloat.to_int (avsync * 1000) ;;
         let d := AStr (str_of_int delay_ms ++ "|" ++ str_of_int delay_ms)%string in
         Ok (filter proc_audio "adelay" [d] [], filter orig_audio "adelay" [d] [])
       else if PyFloat.lt avsync 0 then
         Ok (filter proc_audio "atrim" [] [("start", AFloat (PyFloat.Double (- avsync)))],
             filter orig_audio "atrim" [] [("start", AFloat (PyFloat.Double (- avsync)))])
       else Ok (proc_audio, orig_audio)) ;;
    pitch <-? (x <-? PyFloat.truediv semitones 12 ;; PyFloat.pow2 x) ;;
    let proc_audio :=
      if is_transposed
      then filter proc_audio "rubberband" [] [("pitch", AFloat pitch)]
      else proc_audio in
    let proc_audio :=
      if normalize_audio
      then filter proc_audio "loudnorm" []
             [("i", AInt (-16)); ("tp", AFloat (PyFloat.Double (-1.5))); ("lra", AInt 11)]
      else proc_audio in
    if original_sound then
      let vol :=
        rcatch (v <-? py_float original_sound_volume ;; Ok (v / 100)%float) 0.5%float in
      let scaled_orig := filter orig_audio "volume" [AFormat vol] [] in
      Ok {| orig_audio := orig_audio; proc_audio := proc_audio;
            audio_out := filter_multi [proc_audio; scaled_orig] "amix" []
                           [("inputs", AInt 2); ("dropout_transition", AInt 0)] |}
    else
      Ok {| orig_audio := orig_audio; proc_audio := proc_audio; audio_out := proc_audio |}.

(** [build_ffmpeg_cmd(fr, semitones, normalize_audio,
    buffer_fully_before_playback, avsync, cdg_pixel_scaling, original_sound,
    original_sound_volume)] *)
Definition build_ffmpeg_cmd (fr : file_resolver) (semitones : Z)
    (normalize_audio buffer_fully_before_playback : bool) (avsync : pyval)
    (cdg_pixel_scaling original_sound : bool) (original_sound_volume : pyval)
    : io output_stream :=
  avsync <- lift (py_float avsync) ;;
  hw <- supports_hardware_h264_encoding ;;
  let default_vcodec := if hw then "h264_v4l2m2m" else "libx264" in
  let vcodec :=
    if String.eqb (file_extension fr) ".mp4" || String.eqb (file_extension fr) ".webm"
    then "copy" else default_vcodec in
  let vbitrate := "15M" in
  let is_transposed := negb (semitones =? 0) in
  let acodec :=
    if is_transposed || normalize_audio || PyFloat.ne avsync 0 || original_sound
    then "aac" else "copy" in
  let input := Ffmpeg.input (file_path fr) [] in
  '(orig_audio, proc_audio) <- select_audio input ;;
  locals <- lift (mix_audio semitones normalize_audio avsync original_sound
                    original_sound_volume orig_audio proc_audio) ;;
  let audio := audio_out locals in
  let movflags :=
    if buffer_fully_before_playback then "+faststart"
    else "frag_keyframe+default_base_moof" in
  match cdg_file_path fr with
  | Some cdg =>
      let cdg_input := Ffmpeg.input cdg [("copyts", ANone)] in
      let video :=
        if cdg_pixel_scaling
        then filter (filter (video cdg_input) "fps" [] [("fps", AInt 25)])
               "scale" [AInt (-1); AInt 720] [("flags", AStr "neighbor")]
        else filter (video cdg_input) "fps" [] [("fps", AInt 25)] in
      ret (output [audio; video] (output_file fr)
             [("vcodec", AStr "libx264"); ("acodec", AStr "aac");
              ("preset", AStr "ultrafast"); ("pix_fmt", AStr "yuv420p");
              ("listen", AInt 1); ("f", AStr "mp4");
              ("video_bitrate", AStr "500k"); ("movflags", AStr movflags)])
  | None =>
      let video := video input in
      ret (output [audio; video] (output_file fr)
             [("vcodec", AStr vcodec); ("acodec", AStr acodec);
              ("preset", AStr "ultrafast"); ("listen", AInt 1); ("f", AStr "mp4");
              ("video_bitrate", AStr vbitrate); ("movflags", AStr movflags)])
  end.

(** [get_media_duration(file_path)].  [probe file] is what
    [ffmpeg.probe(file)] returns, [None] when it raises; the bare [except]
    turns whatever is raised inside the [try] into [None]. *)
Definition get_media_duration (probe : string -> option pyobj) (file_path : string)
    : option Z :=
  match probe file_path with
  | None => None
  | Some info =>
      match subscript info "format" with
      | None => None
      | Some format =>
          match subscript format "duration" with
          | None => None
          | Some duration =>
              match (x <-? float_of_obj duration ;; py_round x) with
              | Ok seconds => Some seconds
              | Raise _ => None
              end
          end
      end
  end.

(** [get_ffmpeg_version()].  For this command line [run] gives the text of
    standard output and standard error together. *)
Definition get_ffmpeg_version : io string :=
  try_except
    (result <- subprocess_run ["ffmpeg"; "-version"] ;;
     first_line <- lift (item (split newline result) 0) ;;
     version_info <- lift (item (split space first_line) 2) ;;
     ret version_info)
    [(fun e => is_exn e FileNotFoundError, ret "FFmpeg is not installed");
     (fun e => is_exn e IndexError, ret "Unable to parse FFmpeg version")].

(** [is_ffmpeg_installed()] *)
Definition is_ffmpeg_installed : io bool :=
  r <- try (out <- subprocess_run ["ffmpeg"; "-version"] ;; ret (Some out))
         (fun e => is_exn e FileNotFoundError)
         (ret None) ;;
  match r with
  | None => ret false
  | Some _ => ret true
  end.

(** * Notions used in the statements *)

(** ** Sample environments and requests *)

(** A Raspberry Pi build of ffmpeg: the V4L2 encoder is listed. *)
Definition pi_world : world := {|
  run := fun _ => Ok " DEV.LS h264 H.264 (decoders: h264 h264_v4l2m2m ) (encoders: libx264 h264_v4l2m2m )"
|}.

(** A desktop build of ffmpeg without that encoder. *)
Definition desktop_world : world := {|
  run := fun _ => Ok " DEV.LS h264 H.264 (decoders: h264 ) (encoders: libx264 )"
|}.

(** No ffmpeg on the path. *)
Definition bare_world : world := {|
  run := fun _ => Raise FileNotFoundError
|}.

(** A build whose listing starts with a line in Latin-1: the byte 0xE9 is
    followed by no continuation byte. *)
Definition latin1_world : world := {|
  run := fun _ =>
           Ok (String.append "Codecs compil"
                 (String "233"%char "s : DEV.LS h264 (encoders: libx264 h264_v4l2m2m )"))
|}.

(** The Raspberry Pi again, where every process but the codec listing fails
    to start. *)
Definition pi_world_codecs_only : world := {|
  run := fun argv =>
           match argv with
           | [_; opt] =>
               if String.eqb opt "-codecs" then run pi_world argv
               else Raise PermissionError
           | _ => Raise PermissionError
           end
|}.

Definition mkv_request : file_resolver := {|
  file_path := "/songs/tune.mkv";
  file_extension := ".mkv";
  cdg_file_path := None;
  output_file := "/tmp/tune.mp4"
|}.

Definition mp4_request : file_resolver := {|
  file_path := "/songs/tune.mp4";
  file_extension := ".mp4";
  cdg_file_path := None;
  output_file := "/tmp/tune.mp4"
|}.

Definition cdg_request : file_resolver := {|
  file_path := "/songs/tune.mp3";
  file_extension := ".mp3";
  cdg_file_path := Some "/songs/tune.cdg";
  output_file := "/tmp/tune.mp4"
|}.

(** ** The planner, stage by stage *)

(** The probe spawns [ffmpeg -codecs] once; a missing binary counts as no
    hardware encoder, any other failure to start it is passed on, and so is
    the failure to decode its listing. *)
Definition hw_probe (w : world) : result bool :=
  match run w ["ffmpeg"; "-codecs"] with
  | Ok codecs => text <-? decode codecs ;; Ok (contains "h264_v4l2m2m" text)
  | Raise FileNotFoundError | Raise IndexError => Ok false
  | Raise e => Raise e
  end.

(** The two roles, (original, processed): the audio streams 0 and 1 of the
    source. *)
Definition roles (f : string) (kw : kwargs) : stream * stream :=
  (InputStream f kw (Some "a:0"), InputStream f kw (Some "a:1")).

(** The stages of lines 60-88, each as a function of the stream it is
    applied to. *)
Definition sync_step (a : float) : result (stream -> stream) :=
  if PyFloat.lt 0 a then
    delay_ms <-? PyFloat.to_int (a * 1000) ;;
    Ok (fun s =>
          filter s "adelay"
            [AStr (str_of_int delay_ms ++ "|" ++ str_of_int delay_ms)%string] [])
  else if PyFloat.lt a 0 then
    Ok (fun s => filter s "atrim" [] [("start", AFloat (PyFloat.Double (- a)))])
  else Ok (fun s => s).

(** [2 ** (semitones / 12)] *)
Definition pitch_of (semitones : Z) : result PyFloat.t :=
  x <-? PyFloat.truediv semitones 12 ;; PyFloat.pow2 x.

Definition pitch_step (semitones : Z) (pitch : PyFloat.t) (s : stream) : stream :=
  if semitones =? 0 then s else filter s "rubberband" [] [("pitch", AFloat pitch)].

Definition loudnorm_step (normalize_audio : bool) (s : stream) : stream :=
  if normalize_audio
  then filter s "loudnorm" []
         [("i", AInt (-16)); ("tp", AFloat (PyFloat.Double (-1.5))); ("lra", AInt 11)]
  else s.

(** The multiplier of the [volume] filter. *)
Definition gain (volume : pyval) : float :=
  match py_float volume with
  | Ok v => (v / 100)%float
  | Raise _ => 0.5%float
  end.

Definition remix (proc orig : stream) (volume : pyval) : stream :=
  filter_multi [proc; filter orig "volume" [AFormat (gain volume)] []] "amix" []
    [("inputs", AInt 2); ("dropout_transition", AInt 0)].

(** Lines 53 and 57: whether the filter graph is built at all. *)
Definition builds_graph (semitones : Z) (normalize_audio : bool) (a : float)
    (original_sound : bool) : bool :=
  negb (semitones =? 0) || normalize_audio || PyFloat.ne a 0 || original_sound.

(** The rendering chain of a sidecar file. *)
Definition cdg_video (cdg : string) (cdg_pixel_scaling : bool) : stream :=
  let fps := filter (video (Ffmpeg.input cdg [("copyts", ANone)])) "fps" [] [("fps", AInt 25)] in
  if cdg_pixel_scaling
  then filter fps "scale" [AInt (-1); AInt 720] [("flags", AStr "neighbor")]
  else fps.

(** ** Checks by enumeration *)

Definition pitch_defined (semitones : Z) : bool :=
  match pitch_of semitones with
  | Ok _ => true
  | Raise _ => false
  end.

(** [f] holds on the [n] integers from [lo] on. *)
Fixpoint holds_from (f : Z -> bool) (lo : Z) (n : nat) : bool :=
  match n with
  | O => true
  | S k => f lo && holds_from f (lo + 1) k
  end.

(** ** Floats as real numbers *)

Module Ideal.

(** A finite float as mantissa and binary exponent. *)
Definition dyadic (x : float) : option (Z * Z) :=
  match Prim2SF x with
  | S754_zero _ => Some (0, 0)
  | S754_finite s m e => Some (if s then Zneg m else Zpos m, e)
  | S754_infinity _ | S754_nan => None
  end.

Definition two_power (e : Z) : R :=
  if 0 <=? e then IZR (2 ^ e) else / IZR (2 ^ (- e)).

(** The real number a finite float stands for. *)
Definition of_float (x : float) : option R :=
  match dyadic x with
  | Some (m, e) => Some (IZR m * two_power e)%R
  | None => None
  end.

(** The real number a float object stands for; for a call of [pow] the
    exact power, which the C library returns rounded. *)
Definition value (x : PyFloat.t) : option R :=
  match x with
  | PyFloat.Double f => of_float f
  | PyFloat.LibmPow b y =>
      match of_float b, of_float y with
      | Some b, Some y => Some (Rpower b y)
      | _, _ => None
      end
  end.

End Ideal.

(** ** What a capability probe answers *)

(** What a probe makes of the outcome of its process, looking for [name]
    in the listing. *)
Definition listing_answer (name : string) (outcome : result string) : result bool :=
  match outcome with
  | Ok listing => text <-? decode listing ;; Ok (contains name text)
  | Raise FileNotFoundError | Raise IndexError => Ok false
  | Raise e => Raise e
  end.

(** Bytes that occur in no UTF-8 text: 0xC0, 0xC1 and 0xF5 to 0xFF. *)
Definition never_in_utf8 (b : N) : Prop := (b = 192 \/ b = 193 \/ 245 <= b)%N.

(** [probe] runs [ffmpeg option] once and looks for [name] in what it
    prints.  Only the start of the process is guarded: a missing binary
    counts as False and any other failure to start is passed on; an ASCII
    listing is searched for [name]; a listing with a byte of no UTF-8 text
    raises UnicodeDecodeError. *)
Definition guards_the_start_only (probe : io bool) (option name : string) (w : world)
    : Prop :=
  let outcome := run w ["ffmpeg"; option] in
  fst (probe w) = [Spawn ["ffmpeg"; option]] /\
  (outcome = Raise FileNotFoundError \/ outcome = Raise IndexError ->
   snd (probe w) = Ok false) /\
  (forall e, outcome = Raise e -> e <> FileNotFoundError -> e <> IndexError ->
             snd (probe w) = Raise e) /\
  (forall listing,
     outcome = Ok listing ->
     (Forall (fun b => (b < 128)%N) (ords listing) ->
      exists answer,
        snd (probe w) = Ok answer /\
        (answer = true <->
         exists before after, listing = (before ++ name ++ after)%string)) /\
     (forall b, In b (ords listing) -> never_in_utf8 b ->
                snd (probe w) = Raise UnicodeDecodeError)).

(** ** Notions for the rest of the module *)

(** [sep.join(l)] *)
Fixpoint join (sep : string) (l : list string) : string :=
  match l with
  | [] => ""
  | [x] => x
  | x :: r => String.append x (String.append sep (join sep r))
  end.

(** The character occurs in the string. *)
Definition occurs (c : ascii) (s : string) : Prop :=
  In c (list_ascii_of_string s).

(** [pipeline src names s]: [s] is [src] sent through one single-input
    filter node after the other, the nodes having these names in this
    order. *)
Fixpoint pipeline (src : stream) (names : list string) (s : stream) : Prop :=
  match names with
  | [] => s = src
  | name :: rest => exists args kw, pipeline (filter src name args kw) rest s
  end.

(** The name of the sync node an offset asks for. *)
Definition sync_names (a : float) : list string :=
  if PyFloat.lt 0 a then ["adelay"]
  else if PyFloat.lt a 0 then ["atrim"]
  else [].

(** A Debian build announcing itself on two lines. *)
Definition debian_world : world := {|
  run := fun _ =>
           Ok (String.append
                 "ffmpeg version 4.3.6-0+deb11u1 Copyright (c) 2000-2023 the FFmpeg developers"
                 (String newline "built with gcc 10 (Debian 10.2.1-6)"))
|}.

(** A probe that reports 215.5 seconds for every file. *)
Definition sample_probe (file : string) : option pyobj :=
  Some (PDict [("streams", PList []);
               ("format", PDict [("filename", PVal (PyStr file));
                                 ("duration", PVal (PyStr "215.500000"))])]).

(** What [get_ffmpeg_version] makes of the text [ffmpeg -version] prints. *)
Definition version_of (out : string) : string :=
  match split space (hd "" (split newline out)) with
  | _ :: _ :: version :: _ => version
  | _ => "Unable to parse FFmpeg version"
  end.

Arguments PyFloat.to_int : simpl never.
Arguments PyFloat.truediv : simpl never.
Arguments PyFloat.pow2 : simpl never.
Arguments PyFloat.lt : simpl never.
Arguments PyFloat.ne : simpl never.
Arguments py_float : simpl never.
Arguments PrimFloat.mul : simpl never.
Arguments PrimFloat.div : simpl never.
Arguments PrimFloat.opp : simpl never.
Arguments str_of_int : simpl never.
Arguments String.append : simpl never.
Arguments String.eqb : simpl never.
Arguments roles : simpl never.

(** * Properties of the planner *)

(** ** Running [io] code *)

Lemma bind_ok {A B} (m : io A) (k : A -> io B) (w : world) t (b : B) :
  bind m k w = (t, Ok b) ->
  exists t1 a t2, m w = (t1, Ok a) /\ k a w = (t2, Ok b) /\ t = t1 ++ t2.
Proof.
  unfold bind. destruct (m w) as [t1 [a|e]].
  - destruct (k a w) as [t2 r] eqn:Hk. intros H. inversion H; subst.
    exists t1, a, t2. auto.
  - discriminate.
Qed.

Lemma lift_ok {A} (r : result A) (w : world) t (a : A) :
  lift r w = (t, Ok a) -> r = Ok a /\ t = [].
Proof. unfold lift. intros H. inversion H. auto. Qed.

Lemma supports_hardware_h264_encoding_run (w : world) :
  supports_hardware_h264_encoding w = ([Spawn ["ffmpeg"; "-codecs"]], hw_probe w).
Proof.
  unfold supports_hardware_h264_encoding, hw_probe, bind, try, subprocess_run, ret, lift.
  destruct (run w ["ffmpeg"; "-codecs"]) as [c|e].
  - destruct (decode c); reflexivity.
  - destruct e; reflexivity.
Qed.

Lemma hw_probe_ext (w1 w2 : world) :
  run w1 ["ffmpeg"; "-codecs"] = run w2 ["ffmpeg"; "-codecs"] ->
  hw_probe w1 = hw_probe w2.
Proof. unfold hw_probe. intros ->. reflexivity. Qed.

Lemma hw_probe_defined (w : world) :
  (forall e, run w ["ffmpeg"; "-codecs"] = Raise e ->
             e = FileNotFoundError \/ e = IndexError) ->
  (forall listing, run w ["ffmpeg"; "-codecs"] = Ok listing ->
                   exists text, decode listing = Ok text) ->
  exists hw, hw_probe w = Ok hw.
Proof.
  intros H Hd. unfold hw_probe. destruct (run w ["ffmpeg"; "-codecs"]) as [c|e].
  - destruct (Hd c eq_refl) as [text ->]. simpl. eauto.
  - destruct (H e eq_refl) as [-> | ->]; eauto.
Qed.

Lemma select_audio_run (w : world) (f : string) (kw : kwargs) :
  select_audio (Ffmpeg.input f kw) w = ([], Ok (roles f kw)).
Proof. reflexivity. Qed.

Lemma roles_inputs (f : string) (kw : kwargs) :
  is_input (fst (roles f kw)) = true /\ is_input (snd (roles f kw)) = true.
Proof. split; reflexivity. Qed.

Lemma roles_selector (f : string) (kw : kwargs) (s : stream) :
  s = fst (roles f kw) \/ s = snd (roles f kw) -> selector s <> Some "v".
Proof. intros [->| ->]; simpl; discriminate. Qed.

(** What a returned plan is made of. *)
Lemma build_ffmpeg_cmd_inv (w : world) (fr : file_resolver) (semitones : Z)
    (normalize_audio buffer : bool) (avsync : pyval) (cdg_pixel_scaling original_sound : bool)
    (volume : pyval) t (plan : output_stream) :
  build_ffmpeg_cmd fr semitones normalize_audio buffer avsync cdg_pixel_scaling
    original_sound volume w = (t, Ok plan) ->
  exists a hw locals,
    py_float avsync = Ok a /\ hw_probe w = Ok hw /\
    mix_audio semitones normalize_audio a original_sound volume
      (fst (roles (file_path fr) [])) (snd (roles (file_path fr) [])) = Ok locals /\
    t = [Spawn ["ffmpeg"; "-codecs"]] /\
    filename plan = output_file fr /\
    streams plan =
      [audio_out locals;
       match cdg_file_path fr with
       | Some cdg =>
           let fps := filter (video (Ffmpeg.input cdg [("copyts", ANone)])) "fps" []
                        [("fps", AInt 25)] in
           if cdg_pixel_scaling
           then filter fps "scale" [AInt (-1); AInt 720] [("flags", AStr "neighbor")]
           else fps
       | None => video (Ffmpeg.input (file_path fr) [])
       end] /\
    let movflags :=
      AStr (if buffer then "+faststart" else "frag_keyframe+default_base_moof") in
    options plan =
      match cdg_file_path fr with
      | Some _ =>
          [("vcodec", AStr "libx264"); ("acodec", AStr "aac");
           ("preset", AStr "ultrafast"); ("pix_fmt", AStr "yuv420p");
           ("listen", AInt 1); ("f", AStr "mp4");
           ("video_bitrate", AStr "500k"); ("movflags", movflags)]
      | None =>
          [("vcodec",
            AStr (if String.eqb (file_extension fr) ".mp4"
                     || String.eqb (file_extension fr) ".webm"
                  then "copy"
                  else if hw then "h264_v4l2m2m" else "libx264"));
           ("acodec",
            AStr (if negb (semitones =? 0) || normalize_audio || PyFloat.ne a 0
                     || original_sound
                  then "aac" else "copy"));
           ("preset", AStr "ultrafast"); ("listen", AInt 1); ("f", AStr "mp4");
           ("video_bitrate", AStr "15M"); ("movflags", movflags)]
      end.
Proof.
  unfold build_ffmpeg_cmd. intros H.
  apply bind_ok in H as (t1 & a & t2 & Ha & H & ->).
  apply lift_ok in Ha as [Ha ->].
  apply bind_ok in H as (t3 & hw & t4 & Hhw & H & ->).
  rewrite supports_hardware_h264_encoding_run in Hhw. inversion Hhw; subst; clear Hhw.
  rename H2 into Hhw.
  apply bind_ok in H as (t5 & [o p] & t6 & Hsel & H & ->).
  rewrite select_audio_run in Hsel.
  assert (Ht5 : t5 = []) by congruence.
  assert (Hroles : roles (file_path fr) [] = (o, p)) by congruence.
  subst t5. clear Hsel.
  apply bind_ok in H as (t7 & locals & t8 & Hmix & H & ->).
  apply lift_ok in Hmix as [Hmix ->].
  exists a, hw, locals. rewrite Hroles. simpl fst; simpl snd.
  destruct (cdg_file_path fr) as [cdg|]; unfold ret in H; injection H as <- <-;
    simpl; repeat split; auto.
Qed.

Lemma build_ffmpeg_cmd_trace (w : world) (fr : file_resolver) (semitones : Z)
    (normalize_audio buffer : bool) (avsync : pyval) (cdg_pixel_scaling original_sound : bool)
    (volume : pyval) :
  fst (build_ffmpeg_cmd fr semitones normalize_audio buffer avsync cdg_pixel_scaling
         original_sound volume w)
  = match py_float avsync with
    | Ok _ => [Spawn ["ffmpeg"; "-codecs"]]
    | Raise _ => []
    end.
Proof.
  unfold build_ffmpeg_cmd, bind, lift.
  destruct (py_float avsync) as [a|e]; [|reflexivity].
  rewrite supports_hardware_h264_encoding_run.
  destruct (hw_probe w) as [hw|e]; [|reflexivity].
  rewrite select_audio_run. destruct (roles (file_path fr) []) as [o p].
  destruct (mix_audio _ _ _ _ _ _ _); [|reflexivity].
  destruct (cdg_file_path fr); reflexivity.
Qed.

Lemma build_ffmpeg_cmd_returns (w : world) (fr : file_resolver) (semitones : Z)
    (normalize_audio buffer : bool) (avsync : pyval) (cdg_pixel_scaling original_sound : bool)
    (volume : pyval) a hw locals :
  py_float avsync = Ok a ->
  hw_probe w = Ok hw ->
  mix_audio semitones normalize_audio a original_sound volume
    (fst (roles (file_path fr) [])) (snd (roles (file_path fr) [])) = Ok locals ->
  exists plan,
    build_ffmpeg_cmd fr semitones normalize_audio buffer avsync cdg_pixel_scaling
      original_sound volume w = ([Spawn ["ffmpeg"; "-codecs"]], Ok plan).
Proof.
  intros Ha Hhw Hmix. unfold build_ffmpeg_cmd, bind, lift. rewrite Ha.
  rewrite supports_hardware_h264_encoding_run, Hhw, select_audio_run.
  destruct (roles (file_path fr) []) as [o p]. simpl in Hmix. rewrite Hmix.
  destruct (cdg_file_path fr); unfold ret; simpl; eauto.
Qed.

(** ** Signs of floats *)

Lemma Prim2SF_zero : Prim2SF 0 = S754_zero false.
Proof. reflexivity. Qed.

(** A float is zero, positive, negative or NaN, and exactly one of them. *)
Lemma float_sign_cases (a : float) :
  (PyFloat.eq a 0 = true /\ PyFloat.lt 0 a = false /\ PyFloat.lt a 0 = false
   /\ PyFloat.is_nan a = false)
  \/ (PyFloat.eq a 0 = false /\ PyFloat.lt 0 a = true /\ PyFloat.lt a 0 = false
      /\ PyFloat.is_nan a = false)
  \/ (PyFloat.eq a 0 = false /\ PyFloat.lt 0 a = false /\ PyFloat.lt a 0 = true
      /\ PyFloat.is_nan a = false)
  \/ (PyFloat.eq a 0 = false /\ PyFloat.lt 0 a = false /\ PyFloat.lt a 0 = false
      /\ PyFloat.is_nan a = true).
Proof.
  unfold PyFloat.eq, PyFloat.lt, PyFloat.cmp, PyFloat.is_nan. rewrite Prim2SF_zero.
  destruct (Prim2SF a) as [s|s| |s m e]; try destruct s; simpl; auto 10.
Qed.

(** ** The stages of the audio graph *)

Lemma mix_audio_stages (semitones : Z) (normalize_audio : bool) (a : float)
    (original_sound : bool) (volume : pyval) (o p : stream) :
  mix_audio semitones normalize_audio a original_sound volume o p =
  if builds_graph semitones normalize_audio a original_sound then
    sync <-? sync_step a ;;
    pitch <-? pitch_of semitones ;;
    let proc := loudnorm_step normalize_audio (pitch_step semitones pitch (sync p)) in
    Ok {| orig_audio := sync o; proc_audio := proc;
          audio_out := if original_sound then remix proc (sync o) volume else proc |}
  else Ok {| orig_audio := o; proc_audio := p; audio_out := p |}.
Proof.
  unfold mix_audio, builds_graph, sync_step, pitch_of, pitch_step, loudnorm_step, remix, gain.
  destruct (semitones =? 0), normalize_audio, (PyFloat.ne a 0), original_sound; simpl;
    try reflexivity;
    (destruct (PyFloat.lt 0 a);
     [destruct (PyFloat.to_int (a * 1000))|destruct (PyFloat.lt a 0)]); simpl;
    try reflexivity;
    (destruct (PyFloat.truediv semitones 12) as [x|]; simpl; [|reflexivity]);
    (destruct (PyFloat.pow2 x); simpl; [|reflexivity]);
    try reflexivity;
    destruct (py_float volume); reflexivity.
Qed.

Lemma mix_audio_inv (semitones : Z) (normalize_audio : bool) (a : float)
    (original_sound : bool) (volume : pyval) (o p : stream) locals :
  mix_audio semitones normalize_audio a original_sound volume o p = Ok locals ->
  (builds_graph semitones normalize_audio a original_sound = false /\
   locals = {| orig_audio := o; proc_audio := p; audio_out := p |})
  \/ (builds_graph semitones normalize_audio a original_sound = true /\
      exists sync pitch,
        sync_step a = Ok sync /\ pitch_of semitones = Ok pitch /\
        orig_audio locals = sync o /\
        proc_audio locals
          = loudnorm_step normalize_audio (pitch_step semitones pitch (sync p)) /\
        audio_out locals
          = if original_sound
            then remix (proc_audio locals) (orig_audio locals) volume
            else proc_audio locals).
Proof.
  rewrite mix_audio_stages.
  destruct (builds_graph _ _ _ _).
  - destruct (sync_step a) as [sync|]; [|discriminate].
    destruct (pitch_of semitones) as [pitch|]; [|discriminate].
    simpl. intros H. injection H as <-. right. split; [reflexivity|].
    exists sync, pitch. simpl. auto.
  - intros H. injection H as <-. left. auto.
Qed.

Lemma builds_graph_false (semitones : Z) (normalize_audio : bool) (a : float)
    (original_sound : bool) :
  builds_graph semitones normalize_audio a original_sound = false <->
  semitones = 0 /\ normalize_audio = false /\ PyFloat.eq a 0 = true /\ original_sound = false.
Proof.
  unfold builds_graph, PyFloat.ne.
  destruct (Z.eqb_spec semitones 0), normalize_audio, (PyFloat.eq a 0), original_sound;
    simpl; intuition congruence.
Qed.

(** What a sync stage can be. *)
Lemma sync_step_inv (a : float) sync :
  sync_step a = Ok sync ->
  (PyFloat.lt 0 a = true /\
   exists d, PyFloat.to_int (a * 1000) = Ok d /\
     sync = (fun s => filter s "adelay"
                        [AStr (str_of_int d ++ "|" ++ str_of_int d)%string] []))
  \/ (PyFloat.lt 0 a = false /\ PyFloat.lt a 0 = true /\
      sync = (fun s => filter s "atrim" [] [("start", AFloat (PyFloat.Double (- a)))]))
  \/ (PyFloat.lt 0 a = false /\ PyFloat.lt a 0 = false /\ sync = (fun s => s)).
Proof.
  unfold sync_step. destruct (PyFloat.lt 0 a).
  - destruct (PyFloat.to_int (a * 1000)) as [d|]; [|discriminate].
    simpl. intros H. injection H as <-. left. eauto.
  - destruct (PyFloat.lt a 0); intros H; injection H as <-; auto.
Qed.


Lemma sync_step_defined (a : float) :
  (PyFloat.lt 0 a = true -> PyFloat.finite (a * 1000) = true) ->
  exists sync, sync_step a = Ok sync.
Proof.
  intros H. unfold sync_step. destruct (PyFloat.lt 0 a).
  - specialize (H eq_refl). unfold PyFloat.finite in H. unfold PyFloat.to_int.
    destruct (Prim2SF (a * 1000)); try discriminate; simpl; eauto.
  - destruct (PyFloat.lt a 0); eauto.
Qed.

Lemma pitch_of_zero : pitch_of 0 = Ok (PyFloat.Double 1).
Proof. reflexivity. Qed.

Lemma pitch_of_nonzero (semitones : Z) (pitch : PyFloat.t) :
  pitch_of semitones = Ok pitch ->
  exists x, PyFloat.truediv semitones 12 = Ok x /\ PyFloat.pow2 x = Ok pitch.
Proof.
  unfold pitch_of. destruct (PyFloat.truediv semitones 12) as [x|]; [|discriminate].
  simpl. eauto.
Qed.

Lemma holds_from_spec (f : Z -> bool) (n : nat) :
  forall lo, holds_from f lo n = true ->
  forall z, lo <= z < lo + Z.of_nat n -> f z = true.
Proof.
  induction n as [|k IH]; intros lo H z Hz.
  - simpl in Hz. lia.
  - simpl in H. apply andb_prop in H as [Hlo Hrest].
    destruct (Z.eq_dec z lo) as [->|Hne]; [exact Hlo|].
    apply (IH (lo + 1) Hrest). lia.
Qed.

(** Checked on every shift of the range. *)
Lemma pitch_defined_on_range :
  holds_from pitch_defined (-12287) (Z.to_nat 24575) = true.
Proof. vm_compute. reflexivity. Qed.

Lemma pitch_of_defined (semitones : Z) :
  -12288 < semitones < 12288 -> exists pitch, pitch_of semitones = Ok pitch.
Proof.
  intros Hr.
  assert (H : pitch_defined semitones = true).
  { apply (holds_from_spec _ _ _ pitch_defined_on_range).
    rewrite Z2Nat.id by lia. lia. }
  unfold pitch_defined in H.
  destruct (pitch_of semitones) as [pitch|e]; [eauto|discriminate].
Qed.

(** [2 ** x] overflows for no [x] below 1024.0. *)
Lemma pitch_of_below (x : float) (semitones : Z) :
  PyFloat.truediv semitones 12 = Ok x -> PyFloat.lt x 1024 = true ->
  exists pitch, pitch_of semitones = Ok pitch.
Proof.
  intros Hx Hlt. unfold pitch_of. rewrite Hx. simpl.
  unfold PyFloat.pow2. rewrite Hlt. destruct (Prim2SF x); eauto.
Qed.

(** ** Nodes and inputs of a stream *)

Lemma nodes_input (n : string) (s : stream) :
  is_input s = true -> nodes n s = [].
Proof. destruct s; [reflexivity|discriminate]. Qed.

Lemma nodes_filter (n : string) (s : stream) (m : string) (args : list arg) (kw : kwargs) :
  nodes n (filter s m args kw)
  = (if String.eqb m n then [filter s m args kw] else []) ++ nodes n s.
Proof.
  unfold nodes, filter. simpl. rewrite app_nil_r.
  destruct (String.eqb m n); reflexivity.
Qed.

Lemma nodes_filter_multi2 (n : string) (s1 s2 : stream) (m : string) (args : list arg)
    (kw : kwargs) :
  nodes n (filter_multi [s1; s2] m args kw)
  = (if String.eqb m n then [filter_multi [s1; s2] m args kw] else [])
      ++ nodes n s1 ++ nodes n s2.
Proof.
  unfold nodes, filter_multi. simpl. rewrite app_nil_r, filter_app.
  destruct (String.eqb m n); reflexivity.
Qed.

Lemma nodes_pitch_step (n : string) (semitones : Z) (pitch : PyFloat.t) (s : stream) :
  nodes n (pitch_step semitones pitch s)
  = (if negb (semitones =? 0) && String.eqb "rubberband" n
     then [filter s "rubberband" [] [("pitch", AFloat pitch)]] else [])
      ++ nodes n s.
Proof.
  unfold pitch_step. destruct (semitones =? 0); [reflexivity|].
  rewrite nodes_filter. reflexivity.
Qed.

Lemma nodes_loudnorm_step (n : string) (normalize_audio : bool) (s : stream) :
  nodes n (loudnorm_step normalize_audio s)
  = (if normalize_audio && String.eqb "loudnorm" n
     then [loudnorm_step true s] else [])
      ++ nodes n s.
Proof.
  unfold loudnorm_step. destruct normalize_audio; [|reflexivity].
  rewrite nodes_filter. reflexivity.
Qed.

Lemma nodes_remix (n : string) (proc orig : stream) (volume : pyval) :
  nodes n (remix proc orig volume)
  = (if String.eqb "amix" n then [remix proc orig volume] else [])
      ++ nodes n proc
      ++ (if String.eqb "volume" n
          then [filter orig "volume" [AFormat (gain volume)] []] else [])
      ++ nodes n orig.
Proof.
  unfold remix. rewrite nodes_filter_multi2, nodes_filter. reflexivity.
Qed.

Lemma nodes_sync_step (n : string) (a : float) sync (s : stream) :
  sync_step a = Ok sync ->
  nodes n (sync s)
  = (if String.eqb "adelay" n && PyFloat.lt 0 a
        || String.eqb "atrim" n && negb (PyFloat.lt 0 a) && PyFloat.lt a 0
     then [sync s] else [])
      ++ nodes n s.
Proof.
  intros H.
  apply sync_step_inv in H as [(-> & d & _ & ->)|[(-> & -> & ->)|(-> & -> & ->)]];
    try rewrite nodes_filter;
    destruct (String.eqb "adelay" n), (String.eqb "atrim" n);
    try destruct (PyFloat.lt a 0); reflexivity.
Qed.

Lemma inputs_input (s : stream) : is_input s = true -> inputs s = [s].
Proof. destruct s; [reflexivity|discriminate]. Qed.

Lemma inputs_filter (s : stream) (m : string) (args : list arg) (kw : kwargs) :
  inputs (filter s m args kw) = inputs s.
Proof. unfold inputs, filter. simpl. rewrite app_nil_r. reflexivity. Qed.

Lemma inputs_sync_step (a : float) sync (s : stream) :
  sync_step a = Ok sync -> inputs (sync s) = inputs s.
Proof.
  intros H.
  apply sync_step_inv in H as [(_ & d & _ & ->)|[(_ & _ & ->)|(_ & _ & ->)]];
    try apply inputs_filter; reflexivity.
Qed.

Lemma inputs_pitch_step (semitones : Z) (pitch : PyFloat.t) (s : stream) :
  inputs (pitch_step semitones pitch s) = inputs s.
Proof. unfold pitch_step. destruct (semitones =? 0); [|apply inputs_filter]; reflexivity. Qed.

Lemma inputs_loudnorm_step (normalize_audio : bool) (s : stream) :
  inputs (loudnorm_step normalize_audio s) = inputs s.
Proof. unfold loudnorm_step. destruct normalize_audio; [apply inputs_filter|]; reflexivity. Qed.

Lemma ancestors_inputs (s x : stream) :
  In x (ancestors s) -> is_input x = true -> In x (inputs s).
Proof. intros H Hx. unfold inputs. apply filter_In. auto. Qed.

(** The input streams of the final audio are the two roles. *)
Lemma mix_audio_inputs (semitones : Z) (normalize_audio : bool) (a : float)
    (original_sound : bool) (volume : pyval) (o p : stream) locals :
  mix_audio semitones normalize_audio a original_sound volume o p = Ok locals ->
  is_input o = true -> is_input p = true ->
  forall s, In s (inputs (audio_out locals)) -> s = o \/ s = p.
Proof.
  intros H Ho Hp s.
  destruct o; try discriminate Ho. destruct p; try discriminate Hp.
  apply mix_audio_inv in H as [[_ ->]|(_ & sync & pitch & Hs & _ & Ho' & Hp' & Ha)].
  - simpl. intuition.
  - rewrite Ha, Hp', Ho'.
    apply sync_step_inv in Hs as [(_ & d & _ & ->)|[(_ & _ & ->)|(_ & _ & ->)]];
      unfold remix, loudnorm_step, pitch_step;
      destruct original_sound, normalize_audio, (semitones =? 0); simpl;
      intuition congruence.
Qed.

(** The processed and the original chain of a returned graph. *)
Lemma mix_audio_chains (semitones : Z) (normalize_audio : bool) (a : float)
    (original_sound : bool) (volume : pyval) (o p : stream) locals :
  mix_audio semitones normalize_audio a original_sound volume o p = Ok locals ->
  is_input o = true -> is_input p = true ->
  inputs (proc_audio locals) = [p] /\ inputs (orig_audio locals) = [o] /\
  nodes "amix" (proc_audio locals) = [] /\ nodes "amix" (orig_audio locals) = [] /\
  nodes "volume" (proc_audio locals) = [] /\ nodes "volume" (orig_audio locals) = [].
Proof.
  intros H Ho Hp.
  apply mix_audio_inv in H as [[_ ->]|(_ & sync & pitch & Hs & _ & Ho' & Hp' & _)]; simpl.
  - rewrite !inputs_input, !nodes_input by assumption. auto 10.
  - rewrite Hp', Ho'.
    rewrite inputs_loudnorm_step, inputs_pitch_step, !(inputs_sync_step a sync) by assumption.
    rewrite !nodes_loudnorm_step, !nodes_pitch_step, !(nodes_sync_step _ a sync) by assumption.
    rewrite !inputs_input, !nodes_input by assumption.
    change (String.eqb "loudnorm" "amix") with false.
    change (String.eqb "rubberband" "amix") with false.
    change (String.eqb "adelay" "amix") with false.
    change (String.eqb "atrim" "amix") with false.
    change (String.eqb "loudnorm" "volume") with false.
    change (String.eqb "rubberband" "volume") with false.
    change (String.eqb "adelay" "volume") with false.
    change (String.eqb "atrim" "volume") with false.
    rewrite !andb_false_r. simpl. auto 10.
Qed.

(** Once the graph is built, the final audio carries a filter node, unless
    the only reason to build it was a NaN offset. *)
Lemma built_graph_has_node (semitones : Z) (normalize_audio : bool) (a : float)
    (original_sound : bool) (volume : pyval) (o p : stream) locals :
  mix_audio semitones normalize_audio a original_sound volume o p = Ok locals ->
  builds_graph semitones normalize_audio a original_sound = true ->
  PyFloat.is_nan a = false ->
  is_input (audio_out locals) = false.
Proof.
  intros H Hb Hnan.
  apply mix_audio_inv in H as [[Hb' _]|(_ & sync & pitch & Hs & _ & Ho & Hp & Ha)];
    [congruence|].
  rewrite Ha. destruct original_sound; [reflexivity|].
  rewrite Hp. unfold loudnorm_step. destruct normalize_audio; [reflexivity|].
  unfold pitch_step. destruct (Z.eqb_spec semitones 0) as [->|Hne]; [|reflexivity].
  unfold builds_graph, PyFloat.ne in Hb. simpl in Hb. rewrite !orb_false_r in Hb.
  destruct (float_sign_cases a) as [(He & _)|[(_ & Hlt & _)|[(_ & Hlt & Hlt' & _)|(_ & _ & _ & Hn)]]].
  - rewrite He in Hb. discriminate.
  - unfold sync_step in Hs. rewrite Hlt in Hs.
    destruct (PyFloat.to_int (a * 1000)); [|discriminate].
    simpl in Hs. injection Hs as <-. reflexivity.
  - unfold sync_step in Hs. rewrite Hlt, Hlt' in Hs. injection Hs as <-. reflexivity.
  - congruence.
Qed.

(** ** Powers of two over the reals *)

Local Open Scope R_scope.

Lemma of_float_dyadic (x : float) (m e : Z) :
  Ideal.dyadic x = Some (m, e) -> Ideal.of_float x = Some (IZR m * Ideal.two_power e).
Proof. unfold Ideal.of_float. intros ->. reflexivity. Qed.

Lemma of_float_two : Ideal.of_float 2 = Some 2.
Proof.
  rewrite (of_float_dyadic 2 4503599627370496 (-51)) by (vm_compute; reflexivity).
  f_equal. unfold Ideal.two_power. 
  change (0 <=? -51)%Z with false. change (2 ^ (- -51))%Z with 2251799813685248%Z.
  cbv iota. lra.
Qed.

Lemma pow_ratio (a b : Z) (n : nat) :
  (IZR a / IZR b) ^ n = IZR (a ^ Z.of_nat n) / IZR (b ^ Z.of_nat n).
Proof. unfold Rdiv. rewrite Rpow_mult_distr, pow_inv, !pow_IZR. reflexivity. Qed.

Lemma pow_ratio_gt (a b z : Z) (n : nat) :
  (0 < b)%Z -> (z * b ^ Z.of_nat n < a ^ Z.of_nat n)%Z -> IZR z < (IZR a / IZR b) ^ n.
Proof.
  intros Hb H. rewrite pow_ratio.
  assert (Hp : 0 < IZR (b ^ Z.of_nat n)).
  { apply IZR_lt. apply Z.pow_pos_nonneg; lia. }
  apply Rmult_lt_reg_r with (IZR (b ^ Z.of_nat n)); [exact Hp|].
  unfold Rdiv. rewrite Rmult_assoc, Rinv_l, Rmult_1_r by lra.
  rewrite <- mult_IZR. apply IZR_lt. exact H.
Qed.

Lemma pow_ratio_lt (a b z : Z) (n : nat) :
  (0 < b)%Z -> (a ^ Z.of_nat n < z * b ^ Z.of_nat n)%Z -> (IZR a / IZR b) ^ n < IZR z.
Proof.
  intros Hb H. rewrite pow_ratio.
  assert (Hp : 0 < IZR (b ^ Z.of_nat n)).
  { apply IZR_lt. apply Z.pow_pos_nonneg; lia. }
  apply Rmult_lt_reg_r with (IZR (b ^ Z.of_nat n)); [exact Hp|].
  unfold Rdiv. rewrite Rmult_assoc, Rinv_l, Rmult_1_r by lra.
  rewrite <- mult_IZR. apply IZR_lt. exact H.
Qed.

(** The n-th power of 2^(k/n). *)
Lemma Rpower_root_pow (k n : nat) :
  (0 < n)%nat -> Rpower 2 (INR k / INR n) ^ n = 2 ^ k.
Proof.
  intros Hn.
  assert (Hpos : 0 < Rpower 2 (INR k / INR n)) by (unfold Rpower; apply exp_pos).
  rewrite <- (Rpower_pow n _ Hpos), Rpower_mult.
  replace (INR k / INR n * INR n) with (INR k).
  - apply Rpower_pow. lra.
  - field. apply not_0_INR. lia.
Qed.

Lemma Rpower_root_gt (c : R) (k n : nat) :
  (0 < n)%nat -> 0 <= c -> c ^ n < 2 ^ k -> c < Rpower 2 (INR k / INR n).
Proof.
  intros Hn Hc H. apply Rnot_le_lt. intros Hle.
  assert (Hp : Rpower 2 (INR k / INR n) ^ n <= c ^ n).
  { apply pow_incr. split; [|exact Hle]. unfold Rpower. left. apply exp_pos. }
  rewrite Rpower_root_pow in Hp by assumption. lra.
Qed.

Lemma Rpower_root_lt (c : R) (k n : nat) :
  (0 < n)%nat -> 0 <= c -> 2 ^ k < c ^ n -> Rpower 2 (INR k / INR n) < c.
Proof.
  intros Hn Hc H. apply Rnot_le_lt. intros Hle.
  assert (Hp : c ^ n <= Rpower 2 (INR k / INR n) ^ n).
  { apply pow_incr. split; assumption. }
  rewrite Rpower_root_pow in Hp by assumption. lra.
Qed.

Lemma two_pow_IZR (k : nat) : 2 ^ k = IZR (2 ^ Z.of_nat k).
Proof. rewrite <- pow_IZR. reflexivity. Qed.

(** 1.498 < 2^(7/12) < 1.4984 *)
Lemma seven_semitones_exact :
  1498 / 1000 < Rpower 2 (7 / 12) < 14984 / 10000.
Proof.
  replace (7 / 12) with (INR 7 / INR 12) by (simpl; lra).
  split.
  - apply Rpower_root_gt; [lia|lra|].
    rewrite two_pow_IZR. apply pow_ratio_lt; [lia|]. vm_compute. reflexivity.
  - apply Rpower_root_lt; [lia|lra|].
    rewrite two_pow_IZR. apply pow_ratio_gt; [lia|]. vm_compute. reflexivity.
Qed.

(** 2^(1/4096) < 1 + 1/4095, by Bernoulli's inequality. *)
Lemma small_power : Rpower 2 (/ 4096) < 1 + / 4095.
Proof.
  replace (/ 4096) with (INR 1 / INR 4096)
    by (rewrite !INR_IZR_INZ; change (Z.of_nat 4096) with 4096%Z; simpl; lra).
  apply Rpower_root_lt; [lia|lra|].
  apply Rlt_le_trans with (1 + INR 4096 * / 4095).
  - rewrite INR_IZR_INZ. change (Z.of_nat 4096) with 4096%Z. simpl. lra.
  - apply poly. lra.
Qed.

(** The exact power stays below 1.499 a little above 7/12. *)
Lemma seven_semitones_rounded (y : R) :
  7 / 12 <= y < 7 / 12 + / 4096 ->
  1498 / 1000 < Rpower 2 y < 1499 / 1000.
Proof.
  intros [Hlo Hhi].
  destruct seven_semitones_exact as [Hl Hu].
  pose proof small_power as Hs.
  split.
  - destruct Hlo as [Hlo| <-]; [|exact Hl].
    apply Rlt_trans with (Rpower 2 (7 / 12)); [exact Hl|].
    apply Rpower_lt; lra.
  - apply Rlt_trans with (Rpower 2 (7 / 12 + / 4096)); [apply Rpower_lt; lra|].
    rewrite Rpower_plus.
    assert (H0 : 0 < Rpower 2 (7 / 12)) by (unfold Rpower; apply exp_pos).
    assert (H1 : 0 < Rpower 2 (/ 4096)) by (unfold Rpower; apply exp_pos).
    apply Rlt_trans with (14984 / 10000 * (1 + / 4095)); [|lra].
    apply Rmult_gt_0_lt_compat; lra.
Qed.

Local Close Scope R_scope.

(** ** The input streams of a plan *)

Lemma plan_input_streams (w : world) (fr : file_resolver) (semitones : Z)
    (normalize_audio buffer : bool) (avsync : pyval) (cdg_pixel_scaling original_sound : bool)
    (volume : pyval) t (plan : output_stream) (s : stream) :
  build_ffmpeg_cmd fr semitones normalize_audio buffer avsync cdg_pixel_scaling
    original_sound volume w = (t, Ok plan) ->
  In s (flat_map inputs (streams plan)) ->
  (exists sel,
     s = InputStream (file_path fr) [] (Some sel) /\
     (sel = "a:0" \/ sel = "a:1" \/ (sel = "v" /\ cdg_file_path fr = None)))
  \/ (exists cdg,
        cdg_file_path fr = Some cdg /\
        s = InputStream cdg [("copyts", ANone)] (Some "v")).
Proof.
  intros H Hin.
  apply build_ffmpeg_cmd_inv in H as (a & hw & locals & _ & _ & Hm & _ & _ & Hs & _).
  destruct (roles_inputs (file_path fr) []) as [Ho Hp].
  rewrite Hs in Hin. cbn [flat_map] in Hin. rewrite app_nil_r in Hin.
  apply in_app_or in Hin as [Hin|Hin].
  - left. apply (mix_audio_inputs _ _ _ _ _ _ _ _ Hm Ho Hp) in Hin.
    destruct Hin as [-> | ->]; eexists; (split; [reflexivity|]); auto.
  - destruct (cdg_file_path fr) as [cdg|].
    + right. exists cdg. split; [reflexivity|].
      destruct cdg_pixel_scaling; cbv zeta in Hin; rewrite !inputs_filter in Hin;
        destruct Hin as [<-|[]]; reflexivity.
    + left. destruct Hin as [<-|[]]. eexists. split; [reflexivity|]. auto.
Qed.

(** * The claims *)

(** ** The audio codec *)

(** C1, as amended: on the source-video path (no sidecar) the plan's audio
    codec is copy or aac, and it is copy exactly when semitones = 0,
    normalize is off, avsync equals 0 and the original is not mixed in; with
    copy the audio is the processed role as selected, with no filter node and
    no mix; with aac the audio has gone through a filter node (an avsync that
    is not a number apart).  On the sidecar path the plan's audio codec is
    aac whatever the options. *)
Theorem audio_codec_decision (w : world) (fr : file_resolver) (semitones : Z)
    (normalize_audio buffer : bool) (avsync : pyval) (cdg_pixel_scaling original_sound : bool)
    (volume : pyval) t (plan : output_stream) :
  build_ffmpeg_cmd fr semitones normalize_audio buffer avsync cdg_pixel_scaling
    original_sound volume w = (t, Ok plan) ->
  exists a audio video,
    py_float avsync = Ok a /\
    streams plan = [audio; video] /\
    match cdg_file_path fr with
    | Some _ => lookup "acodec" (options plan) = Some (AStr "aac")
    | None =>
        (lookup "acodec" (options plan) = Some (AStr "copy")
         \/ lookup "acodec" (options plan) = Some (AStr "aac")) /\
        (lookup "acodec" (options plan) = Some (AStr "copy") <->
         semitones = 0 /\ normalize_audio = false /\ PyFloat.eq a 0 = true
         /\ original_sound = false) /\
        (lookup "acodec" (options plan) = Some (AStr "copy") ->
         audio = snd (roles (file_path fr) []) /\ is_input audio = true) /\
        (lookup "acodec" (options plan) = Some (AStr "aac") ->
         PyFloat.is_nan a = false -> is_input audio = false)
    end.
Proof.
  intros H.
  apply build_ffmpeg_cmd_inv in H as (a & hw & locals & Ha & _ & Hmix & _ & _ & Hs & Ho).
  exists a. eexists. eexists. split; [exact Ha|]. split; [exact Hs|].
  cbv zeta in Ho. rewrite Ho. destruct (cdg_file_path fr) as [cdg|]; [reflexivity|].
  change (lookup "acodec" _)
    with (Some (AStr (if builds_graph semitones normalize_audio a original_sound
                      then "aac" else "copy"))).
  rewrite <- builds_graph_false.
  destruct (builds_graph semitones normalize_audio a original_sound) eqn:Hb.
  - split; [right; reflexivity|]. split; [split; discriminate|].
    split; [discriminate|]. intros _ Hnan.
    eapply built_graph_has_node; eauto.
  - split; [left; reflexivity|]. split; [split; reflexivity|].
    split; [|discriminate]. intros _.
    apply mix_audio_inv in Hmix as [[_ ->]|(Hb' & _)]; [|congruence].
    simpl. split; reflexivity.
Qed.

Lemma audio_codec_decision_witness :
  exists t plan,
    build_ffmpeg_cmd mkv_request 0 false false (PyInt 0) false false (PyInt 40) pi_world
      = (t, Ok plan) /\
    exists a audio video,
      py_float (PyInt 0) = Ok a /\
      streams plan = [audio; video] /\
      (lookup "acodec" (options plan) = Some (AStr "copy")
       \/ lookup "acodec" (options plan) = Some (AStr "aac")) /\
      (lookup "acodec" (options plan) = Some (AStr "copy") <->
       0 = 0 /\ false = false /\ PyFloat.eq a 0 = true /\ false = false) /\
      (lookup "acodec" (options plan) = Some (AStr "copy") ->
       audio = snd (roles "/songs/tune.mkv" []) /\ is_input audio = true) /\
      (lookup "acodec" (options plan) = Some (AStr "aac") ->
       PyFloat.is_nan a = false -> is_input audio = false).
Proof.
  eexists. eexists. split.
  - vm_compute. reflexivity.
  - eapply (audio_codec_decision pi_world mkv_request 0 false false (PyInt 0) false false
              (PyInt 40)).
    vm_compute. reflexivity.
Defined.

(** C1 as stated fails in two ways.  On the sidecar path, with
    semitones = 0, normalize off, avsync = 0 and no remix, the audio is the
    processed stream as selected, with no filter node and no mix, and yet the
    plan's audio codec is aac.  On the source-video path the same happens
    when avsync is not a number: it differs from 0, so the codec is aac, and
    it is neither above nor below 0, so no node is inserted. *)
Lemma sidecar_forces_aac :
  exists t plan t' plan',
    build_ffmpeg_cmd cdg_request 0 false false (PyInt 0) false false (PyInt 40) pi_world
      = (t, Ok plan) /\
    nth_error (streams plan) 0 = Some (InputStream "/songs/tune.mp3" [] (Some "a:1")) /\
    lookup "acodec" (options plan) = Some (AStr "aac") /\
    lookup "acodec" (options plan) <> Some (AStr "copy") /\
    build_ffmpeg_cmd mkv_request 0 false false (PyStr "nan") false false (PyInt 40) pi_world
      = (t', Ok plan') /\
    nth_error (streams plan') 0 = Some (InputStream "/songs/tune.mkv" [] (Some "a:1")) /\
    lookup "acodec" (options plan') = Some (AStr "aac").
Proof.
  do 4 eexists. split; [vm_compute; reflexivity|].
  split; [reflexivity|]. split; [reflexivity|]. split; [discriminate|].
  split; [vm_compute; reflexivity|].
  split; reflexivity.
Qed.

(** ** The single audio stream of the plan *)



(** ** The sidecar path *)

(** C3: with a sidecar (CDG) path the plan's video is the sidecar chain (an
    [fps] node at 25 frames, followed by a nearest-neighbour [scale] node
    exactly when pixel scaling is set), the video stream of the source file is
    nowhere in the plan, and video codec, audio codec, preset, pixel format
    and video bitrate are libx264, aac, ultrafast, yuv420p and 500k, whatever
    the extension of the source and whatever the hardware probe answered. *)
Theorem sidecar_path_is_fixed (w : world) (fr : file_resolver) (semitones : Z)
    (normalize_audio buffer : bool) (avsync : pyval) (cdg_pixel_scaling original_sound : bool)
    (volume : pyval) (cdg : string) t (plan : output_stream) :
  cdg_file_path fr = Some cdg ->
  build_ffmpeg_cmd fr semitones normalize_audio buffer avsync cdg_pixel_scaling
    original_sound volume w = (t, Ok plan) ->
  (exists audio, streams plan = [audio; cdg_video cdg cdg_pixel_scaling]) /\
  nodes "scale" (cdg_video cdg cdg_pixel_scaling)
    = (if cdg_pixel_scaling then [cdg_video cdg true] else []) /\
  ~ In (video (Ffmpeg.input (file_path fr) [])) (flat_map ancestors (streams plan)) /\
  lookup "vcodec" (options plan) = Some (AStr "libx264") /\
  lookup "acodec" (options plan) = Some (AStr "aac") /\
  lookup "preset" (options plan) = Some (AStr "ultrafast") /\
  lookup "pix_fmt" (options plan) = Some (AStr "yuv420p") /\
  lookup "video_bitrate" (options plan) = Some (AStr "500k").
Proof.
  intros Hcdg H.
  apply build_ffmpeg_cmd_inv in H as (a & hw & locals & _ & _ & Hmix & _ & _ & Hs & Ho).
  rewrite Hcdg in Hs, Ho. cbv zeta in Ho. rewrite Ho, Hs.
  split; [eexists; reflexivity|].
  split; [destruct cdg_pixel_scaling; reflexivity|].
  split; [|repeat split; reflexivity].
  intros Hin. simpl in Hin. rewrite app_nil_r in Hin.
  apply in_app_or in Hin as [Hin|Hin].
  - apply ancestors_inputs in Hin; [|reflexivity].
    destruct (roles_inputs (file_path fr) []) as [Hio Hip].
    apply (mix_audio_inputs _ _ _ _ _ _ _ _ Hmix Hio Hip) in Hin.
    apply roles_selector in Hin. apply Hin. reflexivity.
  - destruct cdg_pixel_scaling; simpl in Hin;
      repeat destruct Hin as [Hin|Hin]; try discriminate Hin; auto.
Qed.

Lemma sidecar_path_is_fixed_witness :
  exists t plan,
    build_ffmpeg_cmd cdg_request 0 true false (PyInt 0) true true (PyInt 40) pi_world
      = (t, Ok plan) /\
    (exists audio, streams plan = [audio; cdg_video "/songs/tune.cdg" true]) /\
    nodes "scale" (cdg_video "/songs/tune.cdg" true) = [cdg_video "/songs/tune.cdg" true] /\
    ~ In (video (Ffmpeg.input "/songs/tune.mp3" [])) (flat_map ancestors (streams plan)) /\
    lookup "vcodec" (options plan) = Some (AStr "libx264") /\
    lookup "acodec" (options plan) = Some (AStr "aac") /\
    lookup "preset" (options plan) = Some (AStr "ultrafast") /\
    lookup "pix_fmt" (options plan) = Some (AStr "yuv420p") /\
    lookup "video_bitrate" (options plan) = Some (AStr "500k").
Proof.
  eexists. eexists. split.
  - vm_compute. reflexivity.
  - eapply (sidecar_path_is_fixed pi_world cdg_request 0 true false (PyInt 0) true true
             (PyInt 40) "/songs/tune.cdg" _ _ eq_refl).
    vm_compute. reflexivity.
Defined.

(** ** The video codec of the source path *)

(** C4, as amended: without a sidecar the video codec is copy for the
    extensions .mp4 and .webm whatever the hardware probe answered, otherwise
    h264_v4l2m2m when the probe found the hardware encoder and libx264 when it
    did not; the video bitrate is 15M on each of these paths. *)
Theorem source_video_codec (w : world) (fr : file_resolver) (semitones : Z)
    (normalize_audio buffer : bool) (avsync : pyval) (cdg_pixel_scaling original_sound : bool)
    (volume : pyval) t (plan : output_stream) :
  cdg_file_path fr = None ->
  build_ffmpeg_cmd fr semitones normalize_audio buffer avsync cdg_pixel_scaling
    original_sound volume w = (t, Ok plan) ->
  exists hw,
    hw_probe w = Ok hw /\
    lookup "vcodec" (options plan)
      = Some (AStr (if String.eqb (file_extension fr) ".mp4"
                       || String.eqb (file_extension fr) ".webm"
                    then "copy"
                    else if hw then "h264_v4l2m2m" else "libx264")) /\
    lookup "video_bitrate" (options plan) = Some (AStr "15M") /\
    nth_error (streams plan) 1 = Some (video (Ffmpeg.input (file_path fr) [])).
Proof.
  intros Hcdg H.
  apply build_ffmpeg_cmd_inv in H as (a & hw & locals & _ & Hhw & _ & _ & _ & Hs & Ho).
  rewrite Hcdg in Hs, Ho. cbv zeta in Ho. rewrite Ho, Hs.
  exists hw. repeat split; auto.
Qed.

Lemma source_video_codec_witness :
  exists t plan,
    build_ffmpeg_cmd mkv_request 0 true false (PyInt 0) false true (PyInt 40) pi_world
      = (t, Ok plan) /\
    exists hw,
      hw_probe pi_world = Ok hw /\
      lookup "vcodec" (options plan)
        = Some (AStr (if String.eqb ".mkv" ".mp4" || String.eqb ".mkv" ".webm"
                      then "copy"
                      else if hw then "h264_v4l2m2m" else "libx264")) /\
      lookup "video_bitrate" (options plan) = Some (AStr "15M") /\
      nth_error (streams plan) 1 = Some (video (Ffmpeg.input "/songs/tune.mkv" [])).
Proof.
  eexists. eexists. split.
  - vm_compute. reflexivity.
  - eapply (source_video_codec pi_world mkv_request 0 true false (PyInt 0) false true
             (PyInt 40) _ _ eq_refl).
    vm_compute. reflexivity.
Defined.

(** C4 as stated fails: the hardware and the software encode path do not
    carry a bitrate of their own.  The same request planned where the probe
    finds the hardware encoder and where it does not gets h264_v4l2m2m and
    libx264 with one and the same bitrate 15M, which is also what the copy
    path carries. *)
Lemma encode_paths_share_bitrate :
  exists t1 hwplan t2 swplan t3 copyplan,
    build_ffmpeg_cmd mkv_request 0 true false (PyInt 0) false true (PyInt 40) pi_world
      = (t1, Ok hwplan) /\
    build_ffmpeg_cmd mkv_request 0 true false (PyInt 0) false true (PyInt 40) desktop_world
      = (t2, Ok swplan) /\
    build_ffmpeg_cmd mp4_request 0 true false (PyInt 0) false true (PyInt 40) pi_world
      = (t3, Ok copyplan) /\
    lookup "vcodec" (options hwplan) = Some (AStr "h264_v4l2m2m") /\
    lookup "vcodec" (options swplan) = Some (AStr "libx264") /\
    lookup "vcodec" (options copyplan) = Some (AStr "copy") /\
    lookup "video_bitrate" (options hwplan) = lookup "video_bitrate" (options swplan) /\
    lookup "video_bitrate" (options hwplan) = lookup "video_bitrate" (options copyplan) /\
    lookup "video_bitrate" (options hwplan) = Some (AStr "15M").
Proof.
  do 6 eexists.
  split; [vm_compute; reflexivity|].
  split; [vm_compute; reflexivity|].
  split; [vm_compute; reflexivity|].
  repeat split.
Qed.

(** ** Sync compensation *)

(** C5, as amended: whenever the audio graph is built, the sync node is
    the first node on both roles and the same on both.  For avsync > 0 it is
    an [adelay] node whose delay is [int(avsync * 1000)], the offset in
    milliseconds with its fraction dropped, once per channel; for avsync < 0
    it is an [atrim] node starting at -avsync seconds; for avsync = 0 neither
    stream gets a sync node. *)
Theorem sync_compensation (semitones : Z) (normalize_audio : bool) (a : float)
    (original_sound : bool) (volume : pyval) (o p : stream) locals :
  is_input o = true -> is_input p = true ->
  mix_audio semitones normalize_audio a original_sound volume o p = Ok locals ->
  builds_graph semitones normalize_audio a original_sound = true ->
  (PyFloat.lt 0 a = true ->
   exists d,
     PyFloat.to_int (a * 1000) = Ok d /\
     let delay := AStr (str_of_int d ++ "|" ++ str_of_int d)%string in
     nodes "adelay" (proc_audio locals) = [filter p "adelay" [delay] []] /\
     nodes "adelay" (orig_audio locals) = [filter o "adelay" [delay] []] /\
     nodes "atrim" (proc_audio locals) = [] /\ nodes "atrim" (orig_audio locals) = []) /\
  (PyFloat.lt a 0 = true ->
   let start := [("start", AFloat (PyFloat.Double (- a)))] in
   nodes "atrim" (proc_audio locals) = [filter p "atrim" [] start] /\
   nodes "atrim" (orig_audio locals) = [filter o "atrim" [] start] /\
   nodes "adelay" (proc_audio locals) = [] /\ nodes "adelay" (orig_audio locals) = []) /\
  (PyFloat.eq a 0 = true ->
   nodes "adelay" (proc_audio locals) = [] /\ nodes "adelay" (orig_audio locals) = [] /\
   nodes "atrim" (proc_audio locals) = [] /\ nodes "atrim" (orig_audio locals) = []).
Proof.
  intros Ho Hp H Hb.
  apply mix_audio_inv in H as [[Hb' _]|(_ & sync & pitch & Hs & _ & Ho' & Hp' & _)];
    [congruence|].
  rewrite Hp', Ho'.
  rewrite !nodes_loudnorm_step, !nodes_pitch_step.
  change (String.eqb "loudnorm" "adelay") with false.
  change (String.eqb "rubberband" "adelay") with false.
  change (String.eqb "loudnorm" "atrim") with false.
  change (String.eqb "rubberband" "atrim") with false.
  rewrite !andb_false_r. cbn [app].
  rewrite !(nodes_sync_step _ a sync) by assumption.
  rewrite !nodes_input by assumption.
  change (String.eqb "adelay" "adelay") with true.
  change (String.eqb "atrim" "atrim") with true.
  change (String.eqb "adelay" "atrim") with false.
  change (String.eqb "atrim" "adelay") with false.
  destruct (float_sign_cases a)
    as [(He & H1 & H2 & _)|[(He & H1 & H2 & _)|[(He & H1 & H2 & _)|(He & H1 & H2 & _)]]];
    rewrite H1, H2, ?He; cbn [andb orb negb app];
    (split; [|split]); try discriminate.
  - intros _. repeat split.
  - intros _.
    apply sync_step_inv in Hs as [(_ & d & Hd & ->)|[(? & _)|(? & _)]];
      try congruence.
    exists d. repeat split. exact Hd.
  - intros _.
    apply sync_step_inv in Hs as [(? & _)|[(_ & _ & ->)|(_ & ? & _)]];
      try congruence.
    repeat split.
Qed.

Lemma sync_compensation_witness :
  exists locals,
    mix_audio 0 false 0.5 true (PyInt 40) (InputStream "/songs/tune.mkv" [] (Some "a:0"))
      (InputStream "/songs/tune.mkv" [] (Some "a:1")) = Ok locals /\
    (PyFloat.lt 0 0.5 = true ->
     exists d,
       PyFloat.to_int (0.5 * 1000) = Ok d /\
       nodes "adelay" (proc_audio locals)
         = [filter (InputStream "/songs/tune.mkv" [] (Some "a:1")) "adelay"
              [AStr (str_of_int d ++ "|" ++ str_of_int d)%string] []] /\
       nodes "adelay" (orig_audio locals)
         = [filter (InputStream "/songs/tune.mkv" [] (Some "a:0")) "adelay"
              [AStr (str_of_int d ++ "|" ++ str_of_int d)%string] []] /\
       nodes "atrim" (proc_audio locals) = [] /\ nodes "atrim" (orig_audio locals) = []) /\
    PyFloat.to_int (0.5 * 1000) = Ok 500 /\
    str_of_int 500 = "500".
Proof.
  eexists. split; [vm_compute; reflexivity|].
  split; [|split; reflexivity].
  eapply (sync_compensation 0 false 0.5 true (PyInt 40)
            (InputStream "/songs/tune.mkv" [] (Some "a:0"))
            (InputStream "/songs/tune.mkv" [] (Some "a:1")) _ eq_refl eq_refl).
  - vm_compute. reflexivity.
  - reflexivity.
Defined.

(** C5 as stated fails on the delay: for avsync = 0.0625 the offset is
    62.5 ms, and both streams get a delay node of 62 ms. *)
Lemma delay_drops_the_fraction :
  exists locals,
    mix_audio 0 false 0.0625 true (PyInt 40) (InputStream "/songs/tune.mkv" [] (Some "a:0"))
      (InputStream "/songs/tune.mkv" [] (Some "a:1")) = Ok locals /\
    (0.0625 * 1000 = 62.5)%float /\
    nodes "adelay" (proc_audio locals)
      = [filter (InputStream "/songs/tune.mkv" [] (Some "a:1")) "adelay" [AStr "62|62"] []] /\
    nodes "adelay" (orig_audio locals)
      = [filter (InputStream "/songs/tune.mkv" [] (Some "a:0")) "adelay" [AStr "62|62"] []] /\
    PyFloat.of_int 62 = Ok 62%float /\
    PyFloat.ne 62 62.5 = true.
Proof.
  eexists. split; [vm_compute; reflexivity|].
  repeat split.
Qed.

(** ** The pitch shift *)

(** C6: a [rubberband] node is inserted exactly when semitones <> 0, on the
    processed stream only and once: the original chain never holds one, and
    the final audio holds no other.  Its [pitch] argument is the float
    [2 ** (semitones / 12)]: the quotient is the binary64 division of the
    two integers, and the power is the C library's [pow].  For -12, 0 and 12
    semitones the ratio is 0.5, 1.0 and 2.0, and for 7 semitones it lies
    between 1.498 and 1.499 (read as the exact power that [pow] rounds). *)
Theorem pitch_shift (semitones : Z) (normalize_audio : bool) (a : float)
    (original_sound : bool) (volume : pyval) (o p : stream) locals :
  is_input o = true -> is_input p = true ->
  mix_audio semitones normalize_audio a original_sound volume o p = Ok locals ->
  nodes "rubberband" (orig_audio locals) = [] /\
  nodes "rubberband" (audio_out locals) = nodes "rubberband" (proc_audio locals) /\
  (semitones = 0 -> nodes "rubberband" (proc_audio locals) = []) /\
  (semitones <> 0 ->
   exists x pitch upstream,
     PyFloat.truediv semitones 12 = Ok x /\ PyFloat.pow2 x = Ok pitch /\
     nodes "rubberband" (proc_audio locals)
       = [filter upstream "rubberband" [] [("pitch", AFloat pitch)]] /\
     inputs upstream = [p]) /\
  (pitch_of (-12) = Ok (PyFloat.LibmPow 2 (-1))
   /\ Ideal.value (PyFloat.LibmPow 2 (-1)) = Some (1 / 2)%R) /\
  (pitch_of 0 = Ok (PyFloat.Double 1) /\ Ideal.value (PyFloat.Double 1) = Some 1%R) /\
  (pitch_of 12 = Ok (PyFloat.LibmPow 2 1)
   /\ Ideal.value (PyFloat.LibmPow 2 1) = Some 2%R) /\
  (exists x v,
     PyFloat.truediv 7 12 = Ok x /\ pitch_of 7 = Ok (PyFloat.LibmPow 2 x) /\
     Ideal.value (PyFloat.LibmPow 2 x) = Some v /\ (1498 / 1000 < v < 1499 / 1000)%R).
Proof.
  intros Ho Hp H.
  assert (Hchain :
    nodes "rubberband" (orig_audio locals) = [] /\
    nodes "rubberband" (audio_out locals) = nodes "rubberband" (proc_audio locals) /\
    (semitones = 0 -> nodes "rubberband" (proc_audio locals) = []) /\
    (semitones <> 0 ->
     exists x pitch upstream,
       PyFloat.truediv semitones 12 = Ok x /\ PyFloat.pow2 x = Ok pitch /\
       nodes "rubberband" (proc_audio locals)
         = [filter upstream "rubberband" [] [("pitch", AFloat pitch)]] /\
       inputs upstream = [p])).
  { apply mix_audio_inv in H as [[Hb ->]|(_ & sync & pitch & Hs & Hpi & Ho' & Hp' & Hout)].
    - apply builds_graph_false in Hb as (-> & _). simpl.
      rewrite !nodes_input by assumption. repeat split; congruence.
    - assert (Hsn : forall s, is_input s = true -> nodes "rubberband" (sync s) = []).
      { intros s Hi. rewrite (nodes_sync_step _ a sync _ Hs), nodes_input by assumption.
        change (String.eqb "adelay" "rubberband") with false.
        change (String.eqb "atrim" "rubberband") with false. reflexivity. }
      assert (Hon : nodes "rubberband" (orig_audio locals) = []).
      { rewrite Ho'. apply Hsn. exact Ho. }
      assert (Hpn : nodes "rubberband" (proc_audio locals)
                    = if semitones =? 0 then []
                      else [filter (sync p) "rubberband" [] [("pitch", AFloat pitch)]]).
      { rewrite Hp', nodes_loudnorm_step, nodes_pitch_step, Hsn by assumption.
        change (String.eqb "loudnorm" "rubberband") with false.
        change (String.eqb "rubberband" "rubberband") with true.
        rewrite andb_false_r, andb_true_r.
        destruct (semitones =? 0); reflexivity. }
      split; [exact Hon|]. split.
      { rewrite Hout. destruct original_sound; [|reflexivity].
        rewrite nodes_remix, Hon.
        change (String.eqb "amix" "rubberband") with false.
        change (String.eqb "volume" "rubberband") with false.
        simpl. rewrite app_nil_r. reflexivity. }
      split.
      { intros ->. rewrite Hpn. reflexivity. }
      intros Hne. apply Z.eqb_neq in Hne. rewrite Hne in Hpn.
      apply pitch_of_nonzero in Hpi as (x & Hx & Hpw).
      exists x, pitch, (sync p). repeat split; auto.
      rewrite (inputs_sync_step a sync) by assumption. apply inputs_input. exact Hp. }
  destruct Hchain as (H1 & H2 & H3 & H4).
  split; [exact H1|]. split; [exact H2|]. split; [exact H3|]. split; [exact H4|].
  split; [split; [reflexivity|]|].
  { unfold Ideal.value. rewrite of_float_two.
    rewrite (of_float_dyadic (-1) (-4503599627370496) (-52)) by (vm_compute; reflexivity).
    f_equal. unfold Ideal.two_power.
    change (0 <=? -52) with false. change (2 ^ (- -52)) with 4503599627370496.
    cbv iota.
    replace (IZR (-4503599627370496) * / IZR 4503599627370496)%R with (- (1))%R by lra.
    rewrite Rpower_Ropp, Rpower_1 by lra. lra. }
  split; [split; [reflexivity|]|].
  { unfold Ideal.value.
    rewrite (of_float_dyadic 1 4503599627370496 (-52)) by (vm_compute; reflexivity).
    f_equal. unfold Ideal.two_power.
    change (0 <=? -52) with false. change (2 ^ (- -52)) with 4503599627370496.
    cbv iota. lra. }
  split; [split; [reflexivity|]|].
  { unfold Ideal.value. rewrite of_float_two.
    rewrite (of_float_dyadic 1 4503599627370496 (-52)) by (vm_compute; reflexivity).
    f_equal. unfold Ideal.two_power.
    change (0 <=? -52) with false. change (2 ^ (- -52)) with 4503599627370496.
    cbv iota.
    replace (IZR 4503599627370496 * / IZR 4503599627370496)%R with 1%R by lra.
    apply Rpower_1. lra. }
  eexists. eexists. split; [vm_compute; reflexivity|].
  split; [vm_compute; reflexivity|].
  unfold Ideal.value. rewrite of_float_two.
  rewrite (of_float_dyadic _ 5254199565265579 (-53)) by (vm_compute; reflexivity).
  split; [reflexivity|].
  apply seven_semitones_rounded. unfold Ideal.two_power.
  change (0 <=? -53) with false. change (2 ^ (- -53)) with 9007199254740992.
  cbv iota. lra.
Qed.

Lemma pitch_shift_witness :
  exists locals,
    mix_audio 7 true 0 true (PyInt 40) (InputStream "/songs/tune.mkv" [] (Some "a:0"))
      (InputStream "/songs/tune.mkv" [] (Some "a:1")) = Ok locals /\
    nodes "rubberband" (orig_audio locals) = [] /\
    nodes "rubberband" (audio_out locals) = nodes "rubberband" (proc_audio locals) /\
    exists x pitch upstream,
      PyFloat.truediv 7 12 = Ok x /\ PyFloat.pow2 x = Ok pitch /\
      nodes "rubberband" (proc_audio locals)
        = [filter upstream "rubberband" [] [("pitch", AFloat pitch)]] /\
      inputs upstream = [InputStream "/songs/tune.mkv" [] (Some "a:1")].
Proof.
  eexists. split; [vm_compute; reflexivity|].
  destruct (pitch_shift 7 true 0 true (PyInt 40)
              (InputStream "/songs/tune.mkv" [] (Some "a:0"))
              (InputStream "/songs/tune.mkv" [] (Some "a:1")) _ eq_refl eq_refl eq_refl)
    as (H1 & H2 & _ & H4 & _).
  split; [exact H1|]. split; [exact H2|].
  apply H4. discriminate.
Defined.

(** ** The single-stream fallback *)

(** C7, what the code does instead: binding the specifiers a:0 and a:1
    raises nothing on any source, the library opening no file, so that the
    fallback of lines 47-49 is never entered.  Whatever audio the source
    holds, the roles are its audio streams 0 and 1 and no stream of a
    returned plan is the source's single audio selection; when the original
    is mixed in, the two inputs of the plan's one [amix] node derive from
    stream 1 and from stream 0, not from one and the same stream. *)
Theorem fallback_is_never_taken (w : world) (fr : file_resolver) (semitones : Z)
    (normalize_audio buffer : bool) (avsync : pyval) (cdg_pixel_scaling original_sound : bool)
    (volume : pyval) t (plan : output_stream) :
  build_ffmpeg_cmd fr semitones normalize_audio buffer avsync cdg_pixel_scaling
    original_sound volume w = (t, Ok plan) ->
  let stream0 := InputStream (file_path fr) [] (Some "a:0") in
  let stream1 := InputStream (file_path fr) [] (Some "a:1") in
  select_audio (Ffmpeg.input (file_path fr) []) w = ([], Ok (stream0, stream1)) /\
  ~ In (audio (Ffmpeg.input (file_path fr) [])) (flat_map ancestors (streams plan)) /\
  (original_sound = true ->
   exists proc scaled video,
     let merge := filter_multi [proc; scaled] "amix" []
                    [("inputs", AInt 2); ("dropout_transition", AInt 0)] in
     streams plan = [merge; video] /\
     nodes "amix" merge = [merge] /\
     inputs proc = [stream1] /\ inputs scaled = [stream0] /\
     stream0 <> stream1).
Proof.
  intros H stream0 stream1. split; [reflexivity|]. split.
  - intros Hin. apply in_flat_map in Hin as (s & Hs & Hin).
    assert (Hi : In (audio (Ffmpeg.input (file_path fr) [])) (flat_map inputs (streams plan))).
    { apply in_flat_map. exists s. split; [exact Hs|].
      apply ancestors_inputs; [exact Hin|reflexivity]. }
    destruct (plan_input_streams _ _ _ _ _ _ _ _ _ _ _ _ H Hi)
      as [(sel & Heq & Hsel)|(cdg & _ & Heq)]; [|discriminate Heq].
    injection Heq as <-. destruct Hsel as [Hsel|[Hsel|[Hsel _]]]; discriminate Hsel.
  - intros ->.
    apply build_ffmpeg_cmd_inv in H as (a & hw & locals & _ & _ & Hmix & _ & _ & Hs & _).
    destruct (mix_audio_chains _ _ _ _ _ _ _ _ Hmix eq_refl eq_refl)
      as (Hpi & Hoi & Hpm & Hom & _ & _).
    assert (Hout : audio_out locals = remix (proc_audio locals) (orig_audio locals) volume).
    { apply mix_audio_inv in Hmix as [[Hb _]|(_ & sync & pitch & _ & _ & _ & _ & Hout)].
      - apply builds_graph_false in Hb as (_ & _ & _ & Hb). discriminate.
      - exact Hout. }
    exists (proc_audio locals),
      (filter (orig_audio locals) "volume" [AFormat (gain volume)] []).
    eexists. cbv zeta. split; [rewrite Hs, Hout; reflexivity|].
    split.
    + change (filter_multi _ _ _ _)
        with (remix (proc_audio locals) (orig_audio locals) volume).
      rewrite nodes_remix, Hpm, Hom. reflexivity.
    + rewrite inputs_filter. repeat split; auto. discriminate.
Qed.

Lemma fallback_is_never_taken_witness :
  exists t plan,
    build_ffmpeg_cmd mkv_request 0 true false (PyInt 0) false true (PyInt 40) desktop_world
      = (t, Ok plan) /\
    select_audio (Ffmpeg.input "/songs/tune.mkv" []) desktop_world
      = ([], Ok (InputStream "/songs/tune.mkv" [] (Some "a:0"),
                 InputStream "/songs/tune.mkv" [] (Some "a:1"))) /\
    ~ In (audio (Ffmpeg.input "/songs/tune.mkv" [])) (flat_map ancestors (streams plan)) /\
    exists proc scaled video,
      streams plan
        = [filter_multi [proc; scaled] "amix" []
             [("inputs", AInt 2); ("dropout_transition", AInt 0)]; video] /\
      nodes "amix" (filter_multi [proc; scaled] "amix" []
                      [("inputs", AInt 2); ("dropout_transition", AInt 0)])
        = [filter_multi [proc; scaled] "amix" []
             [("inputs", AInt 2); ("dropout_transition", AInt 0)]] /\
      inputs proc = [InputStream "/songs/tune.mkv" [] (Some "a:1")] /\
      inputs scaled = [InputStream "/songs/tune.mkv" [] (Some "a:0")] /\
      InputStream "/songs/tune.mkv" [] (Some "a:0")
        <> InputStream "/songs/tune.mkv" [] (Some "a:1").
Proof.
  eexists. eexists. split; [vm_compute; reflexivity|].
  destruct (fallback_is_never_taken desktop_world mkv_request 0 true false (PyInt 0) false
              true (PyInt 40) _ _ eq_refl) as (Hsel & Hnot & Hmix).
  split; [exact Hsel|]. split; [exact Hnot|]. exact (Hmix eq_refl).
Defined.

(** ** When the planner returns *)

(** C8, as amended: the planner returns a plan for every request, every
    flag and every volume value, parsable or not, provided that
    - avsync is a value [float] accepts whose offset in milliseconds, when
      positive, is finite,
    - the shift lies between -12288 and 12288 semitones or, more generally,
      the quotient [semitones / 12] is a float below 1024.0, and
    - the hardware probe's process starts and prints a listing that decodes,
      or does not start because the ffmpeg binary is missing. *)
Theorem planner_returns (w : world) (fr : file_resolver) (semitones : Z)
    (normalize_audio buffer : bool) (avsync : pyval) (cdg_pixel_scaling original_sound : bool)
    (volume : pyval) (a : float) :
  py_float avsync = Ok a ->
  (PyFloat.lt 0 a = true -> PyFloat.finite (a * 1000) = true) ->
  (-12288 < semitones < 12288
   \/ exists x, PyFloat.truediv semitones 12 = Ok x /\ PyFloat.lt x 1024 = true) ->
  (forall e, run w ["ffmpeg"; "-codecs"] = Raise e ->
             e = FileNotFoundError \/ e = IndexError) ->
  (forall listing, run w ["ffmpeg"; "-codecs"] = Ok listing ->
                   exists text, decode listing = Ok text) ->
  exists t plan,
    build_ffmpeg_cmd fr semitones normalize_audio buffer avsync cdg_pixel_scaling
      original_sound volume w = (t, Ok plan).
Proof.
  intros Ha Hms Hsem Hrun Hdec.
  destruct (hw_probe_defined w Hrun Hdec) as [hw Hhw].
  destruct (sync_step_defined a Hms) as [sync Hsync].
  assert (Hpitch : exists pitch, pitch_of semitones = Ok pitch).
  { destruct Hsem as [Hsem|(x & Hx & Hlt)].
    - apply pitch_of_defined. exact Hsem.
    - apply (pitch_of_below x); assumption. }
  destruct Hpitch as [pitch Hpitch].
  assert (Hmix : exists locals,
             mix_audio semitones normalize_audio a original_sound volume
               (fst (roles (file_path fr) [])) (snd (roles (file_path fr) []))
             = Ok locals).
  { rewrite mix_audio_stages, Hsync, Hpitch. simpl.
    destruct (builds_graph _ _ _ _); eauto. }
  destruct Hmix as [locals Hmix].
  destruct (build_ffmpeg_cmd_returns w fr semitones normalize_audio buffer avsync
              cdg_pixel_scaling original_sound volume a hw locals Ha Hhw Hmix)
    as [plan Hplan].
  eauto.
Qed.

Lemma planner_returns_witness :
  py_float (PyStr "-0.25") = Ok (-0.25)%float /\
  (PyFloat.lt 0 (-0.25) = true -> PyFloat.finite (-0.25 * 1000) = true) /\
  (exists x, PyFloat.truediv (-20000) 12 = Ok x /\ PyFloat.lt x 1024 = true) /\
  (exists text, decode " DEV.LS h264 H.264 (decoders: h264 ) (encoders: libx264 )" = Ok text) /\
  exists t plan,
    build_ffmpeg_cmd cdg_request (-20000) true true (PyStr "-0.25") true true
      (PyStr "loud") desktop_world = (t, Ok plan).
Proof.
  split; [reflexivity|]. split; [discriminate|].
  split; [eexists; split; reflexivity|].
  split; [eexists; reflexivity|].
  apply (planner_returns desktop_world cdg_request (-20000) true true (PyStr "-0.25")
           true true (PyStr "loud") (-0.25)%float).
  - reflexivity.
  - discriminate.
  - right. eexists. split; reflexivity.
  - intros e H. discriminate H.
  - intros listing H. injection H as <-. eexists. reflexivity.
Defined.

(** C8 as stated fails: a shift of 12288 semitones makes [2 ** 1024.0]
    raise OverflowError, and so does an infinite avsync at [int(avsync *
    1000)]; a codec listing that is not UTF-8 makes the probe's [decode]
    raise UnicodeDecodeError.  No plan is returned. *)
Lemma planner_raises :
  build_ffmpeg_cmd mkv_request 12288 true false (PyInt 0) false true (PyInt 40) pi_world
    = ([Spawn ["ffmpeg"; "-codecs"]], Raise OverflowError) /\
  PyFloat.truediv 12288 12 = Ok 1024%float /\
  PyFloat.pow2 1024 = Raise OverflowError /\
  build_ffmpeg_cmd mkv_request 0 true false (PyFloat infinity) false true (PyInt 40) pi_world
    = ([Spawn ["ffmpeg"; "-codecs"]], Raise OverflowError) /\
  PyFloat.to_int (infinity * 1000) = Raise OverflowError /\
  build_ffmpeg_cmd mkv_request 0 true false (PyInt 0) false true (PyInt 40) latin1_world
    = ([Spawn ["ffmpeg"; "-codecs"]], Raise UnicodeDecodeError).
Proof. repeat split. Qed.

(** ** What the plan depends on *)

(** C9, as amended: the outcome of the planner is a function of its
    explicit inputs and of one answer of its environment.  Two invocations
    with equal inputs spawn the same processes and return the same plan, or
    raise the same exception, whenever running [ffmpeg -codecs] has the same
    outcome in both.  The planner runs that hardware probe itself, once in
    every invocation that gets past [float(avsync)], and spawns nothing
    else: it never lists the filters. *)
Theorem planner_reads_probe_only (w1 w2 : world) (fr : file_resolver) (semitones : Z)
    (normalize_audio buffer : bool) (avsync : pyval) (cdg_pixel_scaling original_sound : bool)
    (volume : pyval) :
  run w1 ["ffmpeg"; "-codecs"] = run w2 ["ffmpeg"; "-codecs"] ->
  build_ffmpeg_cmd fr semitones normalize_audio buffer avsync cdg_pixel_scaling
    original_sound volume w1
  = build_ffmpeg_cmd fr semitones normalize_audio buffer avsync cdg_pixel_scaling
      original_sound volume w2
  /\ fst (build_ffmpeg_cmd fr semitones normalize_audio buffer avsync cdg_pixel_scaling
            original_sound volume w1)
     = match py_float avsync with
       | Ok _ => [Spawn ["ffmpeg"; "-codecs"]]
       | Raise _ => []
       end
  /\ ~ In (Spawn ["ffmpeg"; "-filters"])
         (fst (build_ffmpeg_cmd fr semitones normalize_audio buffer avsync
                 cdg_pixel_scaling original_sound volume w1)).
Proof.
  intros Hrun.
  split; [|split; [apply build_ffmpeg_cmd_trace|]].
  2: { rewrite build_ffmpeg_cmd_trace. destruct (py_float avsync); simpl.
       - intros [H|[]]. discriminate H.
       - intros []. }
  unfold build_ffmpeg_cmd, bind, lift.
  destruct (py_float avsync) as [a|e]; [|reflexivity].
  rewrite !supports_hardware_h264_encoding_run, (hw_probe_ext w1 w2 Hrun).
  destruct (hw_probe w2) as [hw|e]; [|reflexivity].
  rewrite !select_audio_run.
  destruct (roles (file_path fr) []) as [o p].
  destruct (mix_audio _ _ _ _ _ _ _); [|reflexivity].
  destruct (cdg_file_path fr); reflexivity.
Qed.

Lemma planner_reads_probe_only_witness :
  run pi_world ["ffmpeg"; "-filters"] <> run pi_world_codecs_only ["ffmpeg"; "-filters"] /\
  build_ffmpeg_cmd mkv_request 3 true false (PyFloat 0.5) false true (PyInt 40) pi_world
  = build_ffmpeg_cmd mkv_request 3 true false (PyFloat 0.5) false true (PyInt 40)
      pi_world_codecs_only
  /\ fst (build_ffmpeg_cmd mkv_request 3 true false (PyFloat 0.5) false true (PyInt 40)
            pi_world)
     = match py_float (PyFloat 0.5) with
       | Ok _ => [Spawn ["ffmpeg"; "-codecs"]]
       | Raise _ => []
       end
  /\ ~ In (Spawn ["ffmpeg"; "-filters"])
         (fst (build_ffmpeg_cmd mkv_request 3 true false (PyFloat 0.5) false true
                 (PyInt 40) pi_world)).
Proof.
  split; [discriminate|].
  exact (planner_reads_probe_only pi_world pi_world_codecs_only mkv_request 3 true false
           (PyFloat 0.5) false true (PyInt 40) eq_refl).
Defined.

(** C9 as stated fails: every invocation that returns has spawned
    [ffmpeg -codecs], and the same request with the same options is planned
    with another video codec where that listing differs. *)
Lemma planner_probes_hardware :
  exists hwplan swplan,
    build_ffmpeg_cmd mkv_request 0 true false (PyInt 0) false true (PyInt 40) pi_world
      = ([Spawn ["ffmpeg"; "-codecs"]], Ok hwplan) /\
    build_ffmpeg_cmd mkv_request 0 true false (PyInt 0) false true (PyInt 40) desktop_world
      = ([Spawn ["ffmpeg"; "-codecs"]], Ok swplan) /\
    lookup "vcodec" (options hwplan) = Some (AStr "h264_v4l2m2m") /\
    lookup "vcodec" (options swplan) = Some (AStr "libx264") /\
    hwplan <> swplan.
Proof.
  eexists. eexists.
  split; [vm_compute; reflexivity|].
  split; [vm_compute; reflexivity|].
  repeat split. discriminate.
Qed.

(** ** The multiplier of the original *)

(** C10: the multiplier of the [volume] node is [float(volume) / 100] for
    every volume that [float] accepts, with no clamping to the range 0..100
    (200 gives 2.0 and -50 gives -0.5), and 0.5 exactly when [float(volume)]
    raises. *)
Theorem gain_is_not_clamped (semitones : Z) (normalize_audio : bool) (a : float)
    (volume : pyval) (o p : stream) locals :
  mix_audio semitones normalize_audio a true volume o p = Ok locals ->
  exists ratio,
    audio_out locals
      = filter_multi
          [proc_audio locals; filter (orig_audio locals) "volume" [AFormat ratio] []]
          "amix" [] [("inputs", AInt 2); ("dropout_transition", AInt 0)] /\
    (forall v, py_float volume = Ok v -> ratio = (v / 100)%float) /\
    (forall e, py_float volume = Raise e -> ratio = 0.5%float) /\
    gain (PyInt 200) = 2%float /\ gain (PyInt (-50)) = (-0.5)%float /\
    gain (PyStr "250") = 2.5%float.
Proof.
  intros H.
  apply mix_audio_inv in H as [[Hb _]|(_ & sync & pitch & _ & _ & _ & _ & Hout)].
  - apply builds_graph_false in Hb as (_ & _ & _ & Hb). discriminate.
  - exists (gain volume). split; [exact Hout|].
    unfold gain. split; [intros v ->; reflexivity|].
    split; [intros e ->; reflexivity|].
    repeat split.
Qed.

Lemma gain_is_not_clamped_witness :
  exists locals,
    mix_audio 0 false 0 true (PyInt 200) (InputStream "/songs/tune.mkv" [] (Some "a:0"))
      (InputStream "/songs/tune.mkv" [] (Some "a:1")) = Ok locals /\
    exists ratio,
      audio_out locals
        = filter_multi
            [proc_audio locals; filter (orig_audio locals) "volume" [AFormat ratio] []]
            "amix" [] [("inputs", AInt 2); ("dropout_transition", AInt 0)] /\
      (forall v, py_float (PyInt 200) = Ok v -> ratio = (v / 100)%float) /\
      (forall e, py_float (PyInt 200) = Raise e -> ratio = 0.5%float) /\
      gain (PyInt 200) = 2%float /\ gain (PyInt (-50)) = (-0.5)%float /\
      gain (PyStr "250") = 2.5%float.
Proof.
  eexists. split; [vm_compute; reflexivity|].
  eapply (gain_is_not_clamped 0 false 0 (PyInt 200)).
  vm_compute. reflexivity.
Defined.

(** ** Container flags and the probes *)

(** X1: every returned plan writes to the request's output file as mp4 for
    a single listener with the ultrafast preset, and its movflags are
    +faststart when the output is buffered fully before playback and
    frag_keyframe+default_base_moof otherwise, on the sidecar path and on the
    source-video path alike. *)
Theorem container_flags (w : world) (fr : file_resolver) (semitones : Z)
    (normalize_audio buffer : bool) (avsync : pyval) (cdg_pixel_scaling original_sound : bool)
    (volume : pyval) t (plan : output_stream) :
  build_ffmpeg_cmd fr semitones normalize_audio buffer avsync cdg_pixel_scaling
    original_sound volume w = (t, Ok plan) ->
  filename plan = output_file fr /\
  lookup "f" (options plan) = Some (AStr "mp4") /\
  lookup "listen" (options plan) = Some (AInt 1) /\
  lookup "preset" (options plan) = Some (AStr "ultrafast") /\
  lookup "movflags" (options plan)
    = Some (AStr (if buffer then "+faststart" else "frag_keyframe+default_base_moof")).
Proof.
  intros H.
  apply build_ffmpeg_cmd_inv in H as (a & hw & locals & _ & _ & _ & _ & Hf & _ & Ho).
  cbv zeta in Ho. rewrite Ho.
  split; [exact Hf|].
  destruct (cdg_file_path fr); repeat split.
Qed.

Lemma container_flags_witness :
  exists t plan,
    build_ffmpeg_cmd cdg_request 0 true true (PyInt 0) false true (PyInt 40) desktop_world
      = (t, Ok plan) /\
    filename plan = "/tmp/tune.mp4" /\
    lookup "f" (options plan) = Some (AStr "mp4") /\
    lookup "listen" (options plan) = Some (AInt 1) /\
    lookup "preset" (options plan) = Some (AStr "ultrafast") /\
    lookup "movflags" (options plan) = Some (AStr "+faststart").
Proof.
  eexists. eexists. split.
  - vm_compute. reflexivity.
  - eapply (container_flags desktop_world cdg_request 0 true true (PyInt 0) false true
              (PyInt 40)).
    vm_compute. reflexivity.
Defined.

(** ** Decoding and searching a listing *)

Lemma decode_ascii (bs : list N) :
  Forall (fun b => (b < 128)%N) bs -> Utf8.decode bs = Ok bs.
Proof.
  induction 1 as [|b r Hb _ IH]; [reflexivity|].
  cbn [Utf8.decode]. apply N.ltb_lt in Hb. rewrite Hb, IH. reflexivity.
Qed.

Lemma continuation_range (b : N) :
  Utf8.continuation b = true -> (128 <= b <= 191)%N.
Proof.
  unfold Utf8.continuation. intros H. apply andb_prop in H as [H1 H2].
  apply N.leb_le in H1. apply N.leb_le in H2. lia.
Qed.

(** A byte of no UTF-8 text is refused wherever it stands. *)
Lemma decode_rejects (b : N) (bs : list N) :
  In b bs -> never_in_utf8 b -> Utf8.decode bs = Raise UnicodeDecodeError.
Proof.
  intros Hin Hbad.
  assert (Hlen : (List.length bs <= List.length bs)%nat) by lia.
  revert Hlen Hin. generalize (List.length bs) at 2. intros n. revert bs.
  induction n as [|n IH]; intros bs Hlen Hin.
  { destruct bs; [destruct Hin|simpl in Hlen; lia]. }
  destruct bs as [|c r]; [destruct Hin|].
  simpl in Hlen. unfold never_in_utf8 in Hbad.
  assert (Hrest : forall l, (List.length l <= n)%nat -> In b l ->
                  (t <-? Utf8.decode l ;; @Ok (list N) (c :: t)) = Raise UnicodeDecodeError
                  /\ Utf8.decode l = Raise UnicodeDecodeError).
  { intros l Hl Hi. rewrite (IH l Hl Hi). split; reflexivity. }
  cbn [Utf8.decode].
  destruct (N.ltb_spec c 128) as [H1|H1].
  { destruct Hin as [->|Hin]; [lia|].
    apply (Hrest r); [lia|exact Hin]. }
  destruct (N.ltb_spec c 194) as [H2|H2]; [reflexivity|].
  destruct (N.ltb_spec c 224) as [H3|H3].
  { destruct r as [|b2 r2]; [reflexivity|].
    destruct (Utf8.continuation b2) eqn:C2; [|reflexivity].
    apply continuation_range in C2. simpl in Hlen.
    destruct Hin as [->|[->|Hin]]; [lia|lia|].
    rewrite (IH r2) by (lia || assumption). reflexivity. }
  destruct (N.ltb_spec c 240) as [H4|H4].
  { destruct r as [|b2 [|b3 r3]]; [reflexivity..|].
    destruct (Utf8.continuation b2) eqn:C2; [|reflexivity].
    destruct (Utf8.continuation b3) eqn:C3; [|reflexivity].
    apply continuation_range in C2. apply continuation_range in C3.
    destruct (_ && _ && _ && _); [|reflexivity]. simpl in Hlen.
    destruct Hin as [->|[->|[->|Hin]]]; [lia|lia|lia|].
    rewrite (IH r3) by (lia || assumption). reflexivity. }
  destruct (N.ltb_spec c 245) as [H5|H5]; [|reflexivity].
  destruct r as [|b2 [|b3 [|b4 r4]]]; [reflexivity..|].
  destruct (Utf8.continuation b2) eqn:C2; [|reflexivity].
  destruct (Utf8.continuation b3) eqn:C3; [|reflexivity].
  destruct (Utf8.continuation b4) eqn:C4; [|reflexivity].
  apply continuation_range in C2. apply continuation_range in C3.
  apply continuation_range in C4.
  destruct (_ && _ && _ && _ && _); [|reflexivity]. simpl in Hlen.
  destruct Hin as [->|[->|[->|[->|Hin]]]]; [lia|lia|lia|lia|].
  rewrite (IH r4) by (lia || assumption). reflexivity.
Qed.

Lemma starts_with_spec (needle haystack : list N) :
  starts_with needle haystack = true <-> exists rest, haystack = needle ++ rest.
Proof.
  revert haystack. induction needle as [|x n IH]; intros h; simpl.
  - split; eauto.
  - destruct h as [|y h].
    + split; [discriminate|]. intros [rest H]. discriminate H.
    + rewrite andb_true_iff, N.eqb_eq, IH. split.
      * intros [-> [rest ->]]. eauto.
      * intros [rest H]. injection H as -> ->. eauto.
Qed.

Lemma substring_spec (needle haystack : list N) :
  substring needle haystack = true <->
  exists before rest, haystack = before ++ needle ++ rest.
Proof.
  induction haystack as [|y h IH]; simpl.
  - rewrite orb_false_r, starts_with_spec. split.
    + intros [rest H]. exists [], rest. exact H.
    + intros (before & rest & H). destruct before; [eauto|discriminate H].
  - rewrite orb_true_iff, starts_with_spec, IH. split.
    + intros [[rest H]|(before & rest & ->)].
      * exists [], rest. exact H.
      * exists (y :: before), rest. reflexivity.
    + intros (before & rest & H). destruct before as [|z before].
      * left. eauto.
      * right. injection H as _ ->. eauto.
Qed.

Lemma ords_app (a b : string) : ords (a ++ b) = ords a ++ ords b.
Proof.
  unfold ords. induction a as [|c a IH]; [reflexivity|].
  change (String c a ++ b)%string with (String c (a ++ b)). simpl. rewrite IH. reflexivity.
Qed.

Lemma ords_split (s : string) (l1 l2 : list N) :
  ords s = l1 ++ l2 ->
  exists s1 s2, s = (s1 ++ s2)%string /\ ords s1 = l1 /\ ords s2 = l2.
Proof.
  revert s. induction l1 as [|x l1 IH]; intros s H.
  - exists "", s. auto.
  - destruct s as [|c s]; [discriminate H|].
    unfold ords in H. simpl in H. injection H as Hx H.
    destruct (IH s H) as (s1 & s2 & -> & H1 & H2).
    exists (String c s1), s2. repeat split; auto.
    unfold ords. simpl. fold (ords s1). rewrite Hx, H1. reflexivity.
Qed.

Lemma ords_inj (a b : string) : ords a = ords b -> a = b.
Proof.
  revert b. induction a as [|c a IH]; intros [|d b] H; try discriminate H; [reflexivity|].
  unfold ords in H. simpl in H. injection H as Hc H.
  rewrite (IH b H). f_equal.
  rewrite <- (ascii_N_embedding c), <- (ascii_N_embedding d), Hc. reflexivity.
Qed.

(** Searching the code points of an ASCII text is searching the text. *)
Lemma contains_spec (name listing : string) :
  contains name (ords listing) = true <->
  exists before after, listing = (before ++ name ++ after)%string.
Proof.
  unfold contains. rewrite substring_spec. split.
  - intros (l1 & l2 & H).
    apply ords_split in H as (s1 & s23 & -> & <- & H).
    apply ords_split in H as (s2 & s3 & -> & H2 & <-).
    apply ords_inj in H2 as ->. eauto.
  - intros (before & after & ->). exists (ords before), (ords after).
    rewrite !ords_app. reflexivity.
Qed.

Lemma is_transpose_enabled_run (w : world) :
  is_transpose_enabled w
  = ([Spawn ["ffmpeg"; "-filters"]], listing_answer "rubberband" (run w ["ffmpeg"; "-filters"])).
Proof.
  unfold is_transpose_enabled, listing_answer, bind, try, subprocess_run, ret, lift.
  destruct (run w ["ffmpeg"; "-filters"]) as [c|e].
  - destruct (decode c); reflexivity.
  - destruct e; reflexivity.
Qed.

Lemma listing_answer_spec (probe : io bool) (option name : string) (w : world) :
  probe w = ([Spawn ["ffmpeg"; option]], listing_answer name (run w ["ffmpeg"; option])) ->
  guards_the_start_only probe option name w.
Proof.
  unfold guards_the_start_only, listing_answer. intros ->. cbn [fst snd].
  destruct (run w ["ffmpeg"; option]) as [out|e].
  - split; [reflexivity|]. split; [intros [H|H]; discriminate H|].
    split; [intros e H; discriminate H|].
    intros listing H. injection H as <-. unfold decode. split.
    + intros Hascii. rewrite decode_ascii by assumption. simpl.
      eexists. split; [reflexivity|]. apply contains_spec.
    + intros b Hin Hbad. rewrite (decode_rejects b) by assumption. reflexivity.
  - split; [reflexivity|]. split.
    { intros [H|H]; injection H as ->; reflexivity. }
    split; [|intros listing H; discriminate H].
    intros e' H. injection H as <-. intros H1 H2. destruct e; congruence.
Qed.

(** X2: both capability probes guard the start of their process and
    nothing after it.  [supports_hardware_h264_encoding()] runs
    [ffmpeg -codecs] and [is_transpose_enabled()] runs [ffmpeg -filters],
    once each.  When the start raises FileNotFoundError or IndexError the
    answer is False, and any other exception of the start is passed on.
    When the process prints an ASCII listing, the answer is True exactly
    when h264_v4l2m2m, or rubberband, stands somewhere in it.  When the
    listing holds a byte of no UTF-8 text, the probe raises
    UnicodeDecodeError: the listing is decoded after the [try]. *)
Theorem probes_guard_the_start_only (w : world) :
  guards_the_start_only supports_hardware_h264_encoding "-codecs" "h264_v4l2m2m" w
  /\ guards_the_start_only is_transpose_enabled "-filters" "rubberband" w.
Proof.
  split; apply listing_answer_spec.
  - rewrite supports_hardware_h264_encoding_run. reflexivity.
  - apply is_transpose_enabled_run.
Qed.

(** * The rest of the module *)

(** ** Splitting text *)

Lemma split_cons (sep : ascii) (s : string) :
  exists field fields, split sep s = field :: fields.
Proof.
  induction s as [|c r IH]; simpl; [eauto|].
  destruct (Ascii.eqb c sep); [eauto|].
  destruct IH as (f & fs & ->). eauto.
Qed.

Lemma join_cons (sep x : string) (r : list string) :
  r <> [] -> join sep (x :: r) = (x ++ sep ++ join sep r)%string.
Proof. destruct r; [congruence|reflexivity]. Qed.

(** Joining the fields with the separator gives the text back. *)
Lemma join_split (sep : ascii) (s : string) :
  join (String sep "") (split sep s) = s.
Proof.
  induction s as [|c r IH]; [reflexivity|].
  simpl split. destruct (Ascii.eqb_spec c sep) as [->|Hne].
  - destruct (split_cons sep r) as (f & fs & Hf).
    rewrite join_cons by (rewrite Hf; discriminate).
    rewrite IH. reflexivity.
  - destruct (split_cons sep r) as (f & fs & Hf). rewrite Hf in *.
    destruct fs as [|g gs].
    + simpl in *. congruence.
    + change (join (String sep "") (String c f :: g :: gs))
        with (String c (f ++ String sep "" ++ join (String sep "") (g :: gs)))%string.
      change (join (String sep "") (f :: g :: gs))
        with (f ++ String sep "" ++ join (String sep "") (g :: gs))%string in IH.
      rewrite IH. reflexivity.
Qed.

(** No field holds the separator. *)
Lemma split_fields (sep : ascii) (s : string) :
  forall field, In field (split sep s) -> ~ occurs sep field.
Proof.
  unfold occurs. induction s as [|c r IH]; simpl; intros field Hin.
  - destruct Hin as [<-|[]]. simpl. auto.
  - destruct (Ascii.eqb_spec c sep) as [->|Hne].
    + destruct Hin as [<-|Hin]; [simpl; auto|]. apply IH. exact Hin.
    + destruct (split_cons sep r) as (f & fs & Hf). rewrite Hf in *.
      destruct Hin as [<-|Hin].
      * simpl. intros [Hc|Hc]; [congruence|].
        apply (IH f); [left; reflexivity|exact Hc].
      * apply IH. right. exact Hin.
Qed.

Lemma append_empty (s : string) : (s ++ "")%string = s.
Proof.
  induction s as [|c s IH]; [reflexivity|].
  change (String c s ++ "")%string with (String c (s ++ "")%string).
  rewrite IH. reflexivity.
Qed.

Lemma occurs_append (c : ascii) (a b : string) :
  occurs c (a ++ b) <-> occurs c a \/ occurs c b.
Proof.
  unfold occurs. induction a as [|x a IH]; simpl.
  - tauto.
  - rewrite IH. tauto.
Qed.

(** ** The version and installation probes *)

Lemma get_ffmpeg_version_run (w : world) :
  get_ffmpeg_version w
  = ([Spawn ["ffmpeg"; "-version"]],
     match run w ["ffmpeg"; "-version"] with
     | Ok out => Ok (version_of out)
     | Raise FileNotFoundError => Ok "FFmpeg is not installed"
     | Raise IndexError => Ok "Unable to parse FFmpeg version"
     | Raise e => Raise e
     end).
Proof.
  unfold get_ffmpeg_version, try_except, bind, subprocess_run, lift, ret, version_of, item.
  destruct (run w ["ffmpeg"; "-version"]) as [out|e].
  - destruct (split_cons newline out) as (line & ls & ->). simpl.
    destruct (split space line) as [|a [|b [|v tl]]]; reflexivity.
  - destruct e; reflexivity.
Qed.

Lemma is_ffmpeg_installed_run (w : world) :
  is_ffmpeg_installed w
  = ([Spawn ["ffmpeg"; "-version"]],
     match run w ["ffmpeg"; "-version"] with
     | Ok _ => Ok true
     | Raise FileNotFoundError => Ok false
     | Raise e => Raise e
     end).
Proof.
  unfold is_ffmpeg_installed, try, bind, subprocess_run, ret.
  destruct (run w ["ffmpeg"; "-version"]) as [out|e]; [reflexivity|].
  destruct e; reflexivity.
Qed.




(** X3: when [ffmpeg -version] runs, [get_ffmpeg_version()] returns the
    third field of the first line of its output, the fields being separated
    by single spaces: the line reads a, space, b, space, version, and then
    ends or goes on with a space, where a, b and the version hold no space.
    With fewer than three fields on that line it returns the text
    "Unable to parse FFmpeg version". *)
Theorem ffmpeg_version_is_third_field (w : world) (out version : string) :
  run w ["ffmpeg"; "-version"] = Ok out ->
  snd (get_ffmpeg_version w) = Ok version ->
  exists line rest,
    out = (line ++ rest)%string /\
    ~ occurs newline line /\
    (rest = "" \/ exists r, rest = String newline r) /\
    ((version = "Unable to parse FFmpeg version"
      /\ (List.length (split space line) < 3)%nat)
     \/ (exists a b tail,
           line = (a ++ " " ++ b ++ " " ++ version ++ tail)%string /\
           ~ occurs space a /\ ~ occurs space b /\ ~ occurs space version /\
           (tail = "" \/ exists r, tail = String space r))).
Proof.
  intros Hrun H. rewrite get_ffmpeg_version_run, Hrun in H. simpl in H.
  injection H as <-. unfold version_of.
  pose proof (join_split newline out) as Hout.
  pose proof (split_fields newline out) as Hnl.
  destruct (split_cons newline out) as (line & ls & Hs). rewrite Hs in *.
  simpl hd.
  exists line, (match ls with [] => "" | _ => String newline (join (String newline "") ls) end).
  split.
  { rewrite <- Hout at 1. destruct ls; simpl.
    - symmetry. apply append_empty.
    - reflexivity. }
  split; [apply Hnl; left; reflexivity|].
  split; [destruct ls; eauto|].
  pose proof (join_split space line) as Hline.
  pose proof (split_fields space line) as Hsp.
  destruct (split space line) as [|a [|b [|v tl]]].
  - left. split; [reflexivity|simpl; lia].
  - left. split; [reflexivity|simpl; lia].
  - left. split; [reflexivity|simpl; lia].
  - right. exists a, b,
      (match tl with [] => "" | _ => String space (join (String space "") tl) end).
    split.
    { rewrite <- Hline at 1. destruct tl; simpl.
      - rewrite append_empty. reflexivity.
      - reflexivity. }
    split; [apply Hsp; simpl; auto|].
    split; [apply Hsp; simpl; auto|].
    split; [apply Hsp; simpl; auto|].
    destruct tl; eauto.
Qed.

Lemma ffmpeg_version_is_third_field_witness :
  run debian_world ["ffmpeg"; "-version"]
    = Ok (String.append
            "ffmpeg version 4.3.6-0+deb11u1 Copyright (c) 2000-2023 the FFmpeg developers"
            (String newline "built with gcc 10 (Debian 10.2.1-6)")) /\
  snd (get_ffmpeg_version debian_world) = Ok "4.3.6-0+deb11u1" /\
  exists line rest,
    String.append
      "ffmpeg version 4.3.6-0+deb11u1 Copyright (c) 2000-2023 the FFmpeg developers"
      (String newline "built with gcc 10 (Debian 10.2.1-6)") = (line ++ rest)%string /\
    ~ occurs newline line /\
    (rest = "" \/ exists r, rest = String newline r) /\
    (("4.3.6-0+deb11u1" = "Unable to parse FFmpeg version"
      /\ (List.length (split space line) < 3)%nat)
     \/ (exists a b tail,
           line = (a ++ " " ++ b ++ " " ++ "4.3.6-0+deb11u1" ++ tail)%string /\
           ~ occurs space a /\ ~ occurs space b /\ ~ occurs space "4.3.6-0+deb11u1" /\
           (tail = "" \/ exists r, tail = String space r))).
Proof.
  split; [reflexivity|]. split; [reflexivity|].
  exact (ffmpeg_version_is_third_field debian_world _ "4.3.6-0+deb11u1" eq_refl eq_refl).
Defined.


(** X5: where no ffmpeg binary can be started, [is_ffmpeg_installed()] is
    False, [get_ffmpeg_version()] is "FFmpeg is not installed", both
    capability probes answer False, and the planner still plans: a plan it
    returns for a request without a sidecar copies the video of .mp4 and
    .webm files and encodes every other one with libx264. *)
Theorem without_ffmpeg (w : world) (fr : file_resolver) (semitones : Z)
    (normalize_audio buffer : bool) (avsync : pyval) (cdg_pixel_scaling original_sound : bool)
    (volume : pyval) :
  (forall args, run w ("ffmpeg" :: args) = Raise FileNotFoundError) ->
  snd (is_ffmpeg_installed w) = Ok false /\
  snd (get_ffmpeg_version w) = Ok "FFmpeg is not installed" /\
  snd (supports_hardware_h264_encoding w) = Ok false /\
  snd (is_transpose_enabled w) = Ok false /\
  forall t plan,
    build_ffmpeg_cmd fr semitones normalize_audio buffer avsync cdg_pixel_scaling
      original_sound volume w = (t, Ok plan) ->
    cdg_file_path fr = None ->
    lookup "vcodec" (options plan)
      = Some (AStr (if String.eqb (file_extension fr) ".mp4"
                       || String.eqb (file_extension fr) ".webm"
                    then "copy" else "libx264")).
Proof.
  intros Hmiss.
  rewrite is_ffmpeg_installed_run, get_ffmpeg_version_run,
    supports_hardware_h264_encoding_run.
  unfold hw_probe. rewrite !Hmiss. simpl snd.
  split; [reflexivity|]. split; [reflexivity|]. split; [reflexivity|].
  split.
  - unfold is_transpose_enabled, bind, try, subprocess_run, ret.
    rewrite Hmiss. reflexivity.
  - intros t plan H Hcdg.
    apply build_ffmpeg_cmd_inv in H as (a & hw & locals & _ & Hhw & _ & _ & _ & _ & Ho).
    unfold hw_probe in Hhw. rewrite Hmiss in Hhw. injection Hhw as <-.
    rewrite Hcdg in Ho. cbv zeta in Ho. rewrite Ho. reflexivity.
Qed.

Lemma without_ffmpeg_witness :
  run bare_world ["ffmpeg"; "-codecs"] = Raise FileNotFoundError /\
  snd (is_ffmpeg_installed bare_world) = Ok false /\
  snd (get_ffmpeg_version bare_world) = Ok "FFmpeg is not installed" /\
  snd (supports_hardware_h264_encoding bare_world) = Ok false /\
  snd (is_transpose_enabled bare_world) = Ok false /\
  exists t plan,
    build_ffmpeg_cmd mkv_request 2 true false (PyInt 0) false true (PyInt 40)
      bare_world = (t, Ok plan) /\
    lookup "vcodec" (options plan) = Some (AStr "libx264").
Proof.
  split; [reflexivity|].
  destruct (without_ffmpeg bare_world mkv_request 2 true false (PyInt 0) false true
              (PyInt 40) (fun _ => eq_refl)) as (H1 & H2 & H3 & H4 & H5).
  split; [exact H1|]. split; [exact H2|]. split; [exact H3|]. split; [exact H4|].
  eexists. eexists. split; [vm_compute; reflexivity|].
  eapply H5; [vm_compute; reflexivity|reflexivity].
Defined.

(** ** The duration of a media file *)

(** Rounding a quotient to the nearest integer, a tie to the even one. *)
Lemma nearest_even (m d : Z) :
  0 < d ->
  2 * Z.abs (m - nearest m d * d) <= d /\
  (2 * Z.abs (m - nearest m d * d) = d -> Z.even (nearest m d) = true).
Proof.
  intros Hd. unfold nearest.
  pose proof (Z.div_mod m d ltac:(lia)) as Hdm.
  pose proof (Z.mod_pos_bound m d Hd) as Hr.
  destruct (Z.compare_spec (2 * (m mod d)) d) as [He|Hl|Hg].
  - destruct (Z.even (m / d)) eqn:Hq.
    + split; [lia|]. intros _. exact Hq.
    + split; [lia|]. intros _. rewrite Z.even_add, Hq. reflexivity.
  - split; lia.
  - split; lia.
Qed.

Lemma py_round_finite (x : float) :
  (exists n, py_round x = Ok n) <-> PyFloat.finite x = true.
Proof.
  unfold py_round, PyFloat.finite.
  destruct (Prim2SF x); split; intros H; try discriminate; eauto;
    destruct H as [n H]; discriminate.
Qed.

Lemma ratio_distance (m n d : Z) :
  0 < d ->
  (Rabs (IZR m * / IZR d - IZR n) = IZR (Z.abs (m - n * d)) * / IZR d)%R.
Proof.
  intros Hd.
  assert (Hpos : (0 < IZR d)%R) by (apply IZR_lt; exact Hd).
  replace (IZR m * / IZR d - IZR n)%R with (IZR (m - n * d) * / IZR d)%R
    by (rewrite minus_IZR, mult_IZR; field; lra).
  rewrite Rabs_mult, abs_IZR.
  rewrite (Rabs_pos_eq (/ IZR d)); [reflexivity|].
  left. apply Rinv_0_lt_compat. exact Hpos.
Qed.

Lemma half_distance (a d : Z) :
  0 < d ->
  (2 * a <= d -> (IZR a * / IZR d <= / 2)%R) /\
  ((IZR a * / IZR d = / 2)%R -> 2 * a = d).
Proof.
  intros Hd.
  assert (Hpos : (0 < IZR d)%R) by (apply IZR_lt; exact Hd).
  split.
  - intros H. apply IZR_le in H. rewrite mult_IZR in H.
    apply Rmult_le_reg_r with (IZR d); [exact Hpos|].
    rewrite Rmult_assoc, Rinv_l by lra. lra.
  - intros H. apply eq_IZR. rewrite mult_IZR.
    apply (f_equal (fun r => (r * IZR d)%R)) in H.
    rewrite Rmult_assoc, Rinv_l in H by lra. lra.
Qed.

Lemma round_dyadic_nearest (m e : Z) :
  (Rabs (IZR m * Ideal.two_power e - IZR (round_dyadic m e)) <= / 2)%R /\
  ((Rabs (IZR m * Ideal.two_power e - IZR (round_dyadic m e)) = / 2)%R ->
   Z.even (round_dyadic m e) = true).
Proof.
  unfold round_dyadic, Ideal.two_power.
  destruct (Z.leb_spec 0 e) as [He|He].
  - rewrite mult_IZR.
    assert (E : (IZR m * IZR (2 ^ e) - IZR m * IZR (2 ^ e) = 0)%R) by lra.
    rewrite E, Rabs_R0. split; [lra|]. intros H. lra.
  - assert (Hd : 0 < 2 ^ (- e)) by (apply Z.pow_pos_nonneg; lia).
    destruct (nearest_even m (2 ^ (- e)) Hd) as [Hle Htie].
    rewrite (ratio_distance _ _ _ Hd).
    destruct (half_distance (Z.abs (m - nearest m (2 ^ (- e)) * 2 ^ (- e))) _ Hd)
      as [H1 H2].
    split; [apply H1; exact Hle|].
    intros Heq. apply Htie. apply H2. exact Heq.
Qed.

(** [round] gives an integer at most one half away from the float, and an
    even one when exactly one half away. *)
Lemma py_round_nearest (x : float) (n : Z) :
  py_round x = Ok n ->
  exists r,
    Ideal.of_float x = Some r /\
    (Rabs (r - IZR n) <= / 2)%R /\
    ((Rabs (r - IZR n) = / 2)%R -> Z.even n = true).
Proof.
  unfold py_round, Ideal.of_float, Ideal.dyadic.
  destruct (Prim2SF x) as [s|s| |s m e]; try discriminate.
  - intros H. injection H as <-. eexists. split; [reflexivity|].
    assert (E : (0 * Ideal.two_power 0 - 0 = 0)%R) by lra.
    rewrite E, Rabs_R0. split; [lra|]. intros _. reflexivity.
  - cbv zeta. intros H. injection H as <-. eexists. split; [reflexivity|].
    destruct (round_dyadic_nearest (Z.pos m) e) as [Hle Htie].
    destruct s; [|split; assumption].
    assert (E : (IZR (Z.neg m) * Ideal.two_power e - IZR (- round_dyadic (Z.pos m) e)
                 = - (IZR (Z.pos m) * Ideal.two_power e - IZR (round_dyadic (Z.pos m) e)))%R).
    { rewrite opp_IZR. change (IZR (Z.neg m)) with (- IZR (Z.pos m))%R. lra. }
    rewrite E, Rabs_Ropp, Z.even_opp. split; assumption.
Qed.

(** X6: a duration that [get_media_duration(file_path)] returns is the
    number of seconds nearest to the float of the probe's
    [format.duration]: at most half a second away, and even when exactly
    half a second away. *)
Theorem media_duration_is_nearest_second (probe : string -> option pyobj)
    (file_path : string) (seconds : Z) :
  get_media_duration probe file_path = Some seconds ->
  exists info format duration x r,
    probe file_path = Some info /\
    subscript info "format" = Some format /\
    subscript format "duration" = Some duration /\
    float_of_obj duration = Ok x /\
    Ideal.of_float x = Some r /\
    (Rabs (r - IZR seconds) <= / 2)%R /\
    ((Rabs (r - IZR seconds) = / 2)%R -> Z.even seconds = true).
Proof.
  unfold get_media_duration.
  destruct (probe file_path) as [info|] eqn:Hi; [|discriminate].
  destruct (subscript info "format") as [format|] eqn:Hf; [|discriminate].
  destruct (subscript format "duration") as [duration|] eqn:Hd; [|discriminate].
  destruct (float_of_obj duration) as [x|] eqn:Hx; simpl; [|discriminate].
  destruct (py_round x) as [n|] eqn:Hn; [|discriminate].
  intros H. injection H as <-.
  destruct (py_round_nearest x n Hn) as (r & Hr & Hle & Htie).
  exists info, format, duration, x, r. repeat split; auto.
Qed.

Lemma media_duration_is_nearest_second_witness :
  get_media_duration sample_probe "/songs/tune.mp4" = Some 216 /\
  exists info format duration x r,
    sample_probe "/songs/tune.mp4" = Some info /\
    subscript info "format" = Some format /\
    subscript format "duration" = Some duration /\
    float_of_obj duration = Ok x /\
    Ideal.of_float x = Some r /\
    (Rabs (r - IZR 216) <= / 2)%R /\
    ((Rabs (r - IZR 216) = / 2)%R -> Z.even 216 = true).
Proof.
  split; [reflexivity|].
  apply (media_duration_is_nearest_second sample_probe "/songs/tune.mp4" 216).
  reflexivity.
Defined.

(** X7: [get_media_duration(file_path)] is None exactly when the probe
    yields no finite duration: the probe raises, its result has no "format"
    entry or that entry no "duration", the duration is not something [float]
    accepts, or it is an infinity or not a number. *)
Theorem media_duration_unknown (probe : string -> option pyobj) (file_path : string) :
  get_media_duration probe file_path = None <->
  ~ (exists info format duration x,
       probe file_path = Some info /\
       subscript info "format" = Some format /\
       subscript format "duration" = Some duration /\
       float_of_obj duration = Ok x /\
       PyFloat.finite x = true).
Proof.
  unfold get_media_duration. split.
  - intros Hnone (info & format & duration & x & Hi & Hf & Hd & Hx & Hfin).
    rewrite Hi, Hf, Hd, Hx in Hnone. simpl in Hnone.
    apply py_round_finite in Hfin as [n Hn]. rewrite Hn in Hnone. discriminate.
  - intros H.
    destruct (probe file_path) as [info|] eqn:Hi; [|reflexivity].
    destruct (subscript info "format") as [format|] eqn:Hf; [|reflexivity].
    destruct (subscript format "duration") as [duration|] eqn:Hd; [|reflexivity].
    destruct (float_of_obj duration) as [x|e] eqn:Hx; simpl; [|reflexivity].
    destruct (py_round x) as [n|e] eqn:Hn; [|reflexivity].
    exfalso. apply H. exists info, format, duration, x.
    repeat split; auto. apply py_round_finite. eauto.
Qed.

(** * More on the planner *)

(** ** The order of the audio filters *)

Lemma pipeline_app (a b c : stream) (n1 n2 : list string) :
  pipeline a n1 b -> pipeline b n2 c -> pipeline a (n1 ++ n2) c.
Proof.
  revert a. induction n1 as [|n n1 IH]; intros a H1 H2; simpl in *.
  - subst b. exact H2.
  - destruct H1 as (args & kw & H1). exists args, kw. eauto.
Qed.

Lemma pipeline_sync_step (a : float) sync (s : stream) :
  sync_step a = Ok sync -> pipeline s (sync_names a) (sync s).
Proof.
  intros H. unfold sync_names.
  apply sync_step_inv in H as [(-> & d & _ & ->)|[(-> & -> & ->)|(-> & -> & ->)]];
    simpl; eauto.
Qed.

Lemma pipeline_pitch_step (semitones : Z) (pitch : PyFloat.t) (s : stream) :
  pipeline s (if semitones =? 0 then [] else ["rubberband"])
    (pitch_step semitones pitch s).
Proof. unfold pitch_step. destruct (semitones =? 0); simpl; eauto. Qed.

Lemma pipeline_loudnorm_step (normalize_audio : bool) (s : stream) :
  pipeline s (if normalize_audio then ["loudnorm"] else [])
    (loudnorm_step normalize_audio s).
Proof. unfold loudnorm_step. destruct normalize_audio; simpl; eauto. Qed.

(** Where no graph is built, the offset is zero and needs no sync node. *)
Lemma sync_names_unbuilt (semitones : Z) (normalize_audio : bool) (a : float)
    (original_sound : bool) :
  builds_graph semitones normalize_audio a original_sound = false ->
  (semitones =? 0) = true /\ normalize_audio = false /\ original_sound = false /\
  sync_names a = [].
Proof.
  intros H. apply builds_graph_false in H as (-> & -> & He & ->).
  repeat split. unfold sync_names.
  destruct (float_sign_cases a) as [(_ & -> & -> & _)|[(He' & _)|[(He' & _)|(He' & _)]]];
    [reflexivity|congruence..].
Qed.

(** X8: in a returned plan each audio role goes through its own chain of
    single-input filters, in a fixed order.  The processed role (audio
    stream 1) goes through the sync node ([adelay] for a positive offset,
    [atrim] for a negative one, none otherwise), then [rubberband] when
    semitones <> 0, then [loudnorm] when normalisation is on.  The original
    role (audio stream 0) goes through the sync node only: it is neither
    pitch-shifted nor normalised.  With the original mixed in, the plan's
    audio is the [amix] of the processed chain and of the original chain
    after [volume]; without, it is the processed chain.  The video of a plan
    without a sidecar is the source's video, unfiltered. *)
Theorem audio_filter_order (w : world) (fr : file_resolver) (semitones : Z)
    (normalize_audio buffer : bool) (avsync : pyval) (cdg_pixel_scaling original_sound : bool)
    (volume : pyval) t (plan : output_stream) :
  build_ffmpeg_cmd fr semitones normalize_audio buffer avsync cdg_pixel_scaling
    original_sound volume w = (t, Ok plan) ->
  exists a original processed video,
    py_float avsync = Ok a /\
    pipeline (InputStream (file_path fr) [] (Some "a:0")) (sync_names a) original /\
    pipeline (InputStream (file_path fr) [] (Some "a:1"))
      (sync_names a
         ++ (if semitones =? 0 then [] else ["rubberband"])
         ++ (if normalize_audio then ["loudnorm"] else []))
      processed /\
    streams plan
      = [if original_sound
         then filter_multi [processed; filter original "volume" [AFormat (gain volume)] []]
                "amix" [] [("inputs", AInt 2); ("dropout_transition", AInt 0)]
         else processed;
         video] /\
    (cdg_file_path fr = None -> video = Ffmpeg.video (Ffmpeg.input (file_path fr) [])).
Proof.
  intros H.
  apply build_ffmpeg_cmd_inv in H as (a & hw & locals & Ha & _ & Hm & _ & _ & Hs & _).
  change (fst (roles (file_path fr) []))
    with (InputStream (file_path fr) [] (Some "a:0")) in Hm.
  change (snd (roles (file_path fr) []))
    with (InputStream (file_path fr) [] (Some "a:1")) in Hm.
  apply mix_audio_inv in Hm as [[Hb ->]|(_ & sync & pitch & Hsy & _ & Ho' & Hp' & Hout)].
  - apply sync_names_unbuilt in Hb as (Hz & -> & -> & Hn).
    cbn [audio_out] in Hs.
    exists a. rewrite Hz, Hn. eexists. eexists. eexists.
    split; [exact Ha|]. split; [reflexivity|]. split; [reflexivity|].
    split; [exact Hs|]. intros ->. reflexivity.
  - exists a, (orig_audio locals), (proc_audio locals). eexists.
    split; [exact Ha|].
    split; [rewrite Ho'; apply pipeline_sync_step; exact Hsy|].
    split.
    { rewrite Hp'. eapply pipeline_app; [apply pipeline_sync_step; exact Hsy|].
      eapply pipeline_app; [apply pipeline_pitch_step|apply pipeline_loudnorm_step]. }
    split.
    { rewrite Hs, Hout. destruct original_sound; reflexivity. }
    intros Hc. rewrite Hc. reflexivity.
Qed.

Lemma audio_filter_order_witness :
  exists t plan a original processed video,
    build_ffmpeg_cmd mkv_request 2 true false (PyFloat (-0.25)%float) false true (PyInt 40)
      pi_world = (t, Ok plan) /\
    py_float (PyFloat (-0.25)%float) = Ok a /\
    pipeline (InputStream "/songs/tune.mkv" [] (Some "a:0")) ["atrim"] original /\
    pipeline (InputStream "/songs/tune.mkv" [] (Some "a:1"))
      ["atrim"; "rubberband"; "loudnorm"] processed /\
    streams plan
      = [filter_multi [processed; filter original "volume" [AFormat (gain (PyInt 40))] []]
           "amix" [] [("inputs", AInt 2); ("dropout_transition", AInt 0)];
         video] /\
    video = Ffmpeg.video (Ffmpeg.input "/songs/tune.mkv" []).
Proof.
  destruct (audio_filter_order pi_world mkv_request 2 true false (PyFloat (-0.25)%float)
              false true (PyInt 40) _ _ eq_refl)
    as (a & original & processed & video & Ha & Ho & Hp & Hs & Hv).
  eexists. eexists. exists a, original, processed, video.
  split; [reflexivity|]. split; [exact Ha|].
  injection Ha as <-.
  split; [exact Ho|]. split; [exact Hp|]. split; [exact Hs|]. exact (Hv eq_refl).
Defined.

(** ** Loudness normalisation *)

(** X9: a returned plan holds a [loudnorm] node exactly when normalisation
    is on, and then exactly one, with the targets i = -16, tp = -1.5 and
    lra = 11.  It sits on the processed stream before any mixing: nothing
    upstream of it is an [amix] or a [volume] node, and the one input stream
    upstream of it is the processed role; the video holds no such node. *)
Theorem loudness_normalisation (w : world) (fr : file_resolver) (semitones : Z)
    (normalize_audio buffer : bool) (avsync : pyval) (cdg_pixel_scaling original_sound : bool)
    (volume : pyval) t (plan : output_stream) :
  build_ffmpeg_cmd fr semitones normalize_audio buffer avsync cdg_pixel_scaling
    original_sound volume w = (t, Ok plan) ->
  exists audio video,
    streams plan = [audio; video] /\
    nodes "loudnorm" video = [] /\
    (normalize_audio = false -> nodes "loudnorm" audio = []) /\
    (normalize_audio = true ->
     exists up,
       nodes "loudnorm" audio
         = [filter up "loudnorm" []
              [("i", AInt (-16)); ("tp", AFloat (PyFloat.Double (-1.5))); ("lra", AInt 11)]] /\
       nodes "amix" up = [] /\ nodes "volume" up = [] /\
       inputs up = [snd (roles (file_path fr) [])]).
Proof.
  intros H.
  apply build_ffmpeg_cmd_inv in H as (a & hw & locals & _ & _ & Hm & _ & _ & Hs & _).
  destruct (roles_inputs (file_path fr) []) as [Ho Hp].
  eexists. eexists. split; [exact Hs|].
  split.
  { destruct (cdg_file_path fr) as [cdg|]; [|reflexivity].
    destruct cdg_pixel_scaling; cbv zeta; rewrite !nodes_filter;
      change (String.eqb "fps" "loudnorm") with false;
      change (String.eqb "scale" "loudnorm") with false; reflexivity. }
  apply mix_audio_inv in Hm as [[Hb ->]|(_ & sync & pitch & Hsy & _ & Ho' & Hp' & Hout)].
  - apply builds_graph_false in Hb as (_ & -> & _). simpl.
    split; [intros _; apply nodes_input; exact Hp|discriminate].
  - assert (Hup : forall n,
               String.eqb "rubberband" n = false ->
               String.eqb "adelay" n = false -> String.eqb "atrim" n = false ->
               nodes n (pitch_step semitones pitch (sync (snd (roles (file_path fr) []))))
               = []).
    { intros n H1 H2 H3.
      rewrite nodes_pitch_step, (nodes_sync_step _ a sync), nodes_input by assumption.
      rewrite H1, H2, H3, andb_false_r. reflexivity. }
    assert (Horig : nodes "loudnorm" (sync (fst (roles (file_path fr) []))) = []).
    { rewrite (nodes_sync_step _ a sync), nodes_input by assumption.
      change (String.eqb "adelay" "loudnorm") with false.
      change (String.eqb "atrim" "loudnorm") with false. reflexivity. }
    assert (Hproc : nodes "loudnorm" (proc_audio locals)
                    = if normalize_audio
                      then [loudnorm_step true
                              (pitch_step semitones pitch
                                 (sync (snd (roles (file_path fr) []))))]
                      else []).
    { rewrite Hp', nodes_loudnorm_step, Hup by reflexivity.
      change (String.eqb "loudnorm" "loudnorm") with true.
      rewrite andb_true_r, app_nil_r. reflexivity. }
    assert (Haudio : nodes "loudnorm" (audio_out locals)
                     = nodes "loudnorm" (proc_audio locals)).
    { rewrite Hout. destruct original_sound; [|reflexivity].
      rewrite nodes_remix, Ho', Horig.
      change (String.eqb "amix" "loudnorm") with false.
      change (String.eqb "volume" "loudnorm") with false.
      rewrite app_nil_r. reflexivity. }
    rewrite Haudio, Hproc. split; [intros ->; reflexivity|]. intros ->.
    eexists. split; [reflexivity|].
    rewrite !Hup by reflexivity.
    rewrite inputs_pitch_step, (inputs_sync_step a sync), inputs_input by assumption.
    auto.
Qed.

Lemma loudness_normalisation_witness :
  exists t plan audio video,
    build_ffmpeg_cmd mkv_request 2 true false (PyFloat (-0.25)%float) false true (PyInt 40)
      pi_world = (t, Ok plan) /\
    streams plan = [audio; video] /\
    nodes "loudnorm" video = [] /\
    exists up,
      nodes "loudnorm" audio
        = [filter up "loudnorm" []
             [("i", AInt (-16)); ("tp", AFloat (PyFloat.Double (-1.5))); ("lra", AInt 11)]] /\
      nodes "amix" up = [] /\ nodes "volume" up = [] /\
      inputs up = [snd (roles "/songs/tune.mkv" [])].
Proof.
  destruct (loudness_normalisation pi_world mkv_request 2 true false (PyFloat (-0.25)%float)
              false true (PyInt 40) _ _ eq_refl)
    as (audio & video & Hs & Hv & _ & Hn).
  eexists. eexists. exists audio, video.
  split; [reflexivity|]. split; [exact Hs|]. split; [exact Hv|].
  exact (Hn eq_refl).
Defined.

(** ** The arguments of the sync nodes *)

(** A product of two floats that are not negative is not negative. *)
Lemma delay_nonneg (a : float) (d : Z) :
  PyFloat.lt 0 a = true -> PyFloat.to_int (a * 1000) = Ok d -> 0 <= d.
Proof.
  unfold PyFloat.lt, PyFloat.cmp, PyFloat.to_int.
  rewrite Prim2SF_zero, mul_spec.
  set (k := Prim2SF 1000). vm_compute in k. subst k.
  destruct (Prim2SF a) as [s|s| |s m e]; simpl SFcompare; try discriminate;
    destruct s; try discriminate; intros _.
  cbv [SF64mul SFmul xorb binary_round_aux].
  destruct (shr_fexp prec emax _ _ _) as [mrs' e'].
  destruct (shr_fexp prec emax _ _ _) as [mrs'' e''].
  destruct (shr_m mrs'') as [|q|q]; try discriminate.
  - intros H. injection H as <-. lia.
  - destruct (e'' <=? emax - prec); try discriminate.
    intros H. injection H as <-. apply Z.shiftl_nonneg. lia.
Qed.

Lemma trim_positive (a : float) : PyFloat.lt a 0 = true -> PyFloat.lt 0 (- a) = true.
Proof.
  unfold PyFloat.lt, PyFloat.cmp. rewrite opp_spec, Prim2SF_zero.
  destruct (Prim2SF a) as [s|s| |s m e]; try destruct s; simpl; congruence.
Qed.

(** The sync nodes of a returned plan. *)
Lemma plan_sync_nodes (n : string) (w : world) (fr : file_resolver) (semitones : Z)
    (normalize_audio buffer : bool) (avsync : pyval) (cdg_pixel_scaling original_sound : bool)
    (volume : pyval) t (plan : output_stream) (s : stream) :
  n = "adelay" \/ n = "atrim" ->
  build_ffmpeg_cmd fr semitones normalize_audio buffer avsync cdg_pixel_scaling
    original_sound volume w = (t, Ok plan) ->
  In s (flat_map (nodes n) (streams plan)) ->
  exists a sync up,
    py_float avsync = Ok a /\ sync_step a = Ok sync /\ s = sync up /\
    (String.eqb "adelay" n && PyFloat.lt 0 a
     || String.eqb "atrim" n && negb (PyFloat.lt 0 a) && PyFloat.lt a 0) = true.
Proof.
  intros Hn H Hin.
  apply build_ffmpeg_cmd_inv in H as (a & hw & locals & Ha & _ & Hm & _ & _ & Hs & _).
  destruct (roles_inputs (file_path fr) []) as [Ho Hp].
  rewrite Hs in Hin. cbn [flat_map] in Hin. rewrite app_nil_r in Hin.
  apply in_app_or in Hin as [Hin|Hin].
  2:{ exfalso. destruct (cdg_file_path fr) as [cdg|]; [|exact Hin].
      destruct cdg_pixel_scaling; cbv zeta in Hin; rewrite !nodes_filter in Hin;
        destruct Hn as [-> | ->]; exact Hin. }
  apply mix_audio_inv in Hm as [[_ ->]|(_ & sync & pitch & Hsy & _ & Ho' & Hp' & Hout)].
  - cbn [audio_out] in Hin. rewrite nodes_input in Hin by assumption. destruct Hin.
  - exists a, sync.
    assert (Hone : forall r, is_input r = true -> In s (nodes n (sync r)) ->
                   s = sync r /\
                   (String.eqb "adelay" n && PyFloat.lt 0 a
                    || String.eqb "atrim" n && negb (PyFloat.lt 0 a) && PyFloat.lt a 0)
                   = true).
    { intros r Hr Hi. rewrite (nodes_sync_step _ a sync), nodes_input, app_nil_r in Hi
        by assumption.
      destruct (_ || _); [|destruct Hi].
      destruct Hi as [<-|[]]. auto. }
    assert (Hproc : In s (nodes n (proc_audio locals)) ->
                    In s (nodes n (sync (snd (roles (file_path fr) []))))).
    { rewrite Hp', nodes_loudnorm_step, nodes_pitch_step.
      replace (String.eqb "loudnorm" n) with false by (destruct Hn as [-> | ->]; reflexivity).
      replace (String.eqb "rubberband" n) with false by (destruct Hn as [-> | ->]; reflexivity).
      rewrite !andb_false_r. exact (fun x => x). }
    rewrite Hout in Hin. destruct original_sound.
    + rewrite nodes_remix in Hin.
      replace (String.eqb "amix" n) with false in Hin
        by (destruct Hn as [-> | ->]; reflexivity).
      replace (String.eqb "volume" n) with false in Hin
        by (destruct Hn as [-> | ->]; reflexivity).
      cbn [app] in Hin. apply in_app_or in Hin as [Hin|Hin].
      * apply Hproc, Hone in Hin as [-> Hc]; eauto.
      * rewrite Ho' in Hin. apply Hone in Hin as [-> Hc]; eauto.
    + apply Hproc, Hone in Hin as [-> Hc]; eauto.
Qed.

(** X10: the sync nodes of a returned plan get arguments ffmpeg accepts:
    every [adelay] node delays both channels by the same whole number of
    milliseconds, which is not negative, and every [atrim] node starts at a
    float greater than zero. *)
Theorem sync_arguments_are_valid (w : world) (fr : file_resolver) (semitones : Z)
    (normalize_audio buffer : bool) (avsync : pyval) (cdg_pixel_scaling original_sound : bool)
    (volume : pyval) t (plan : output_stream) (s : stream) :
  build_ffmpeg_cmd fr semitones normalize_audio buffer avsync cdg_pixel_scaling
    original_sound volume w = (t, Ok plan) ->
  (In s (flat_map (nodes "adelay") (streams plan)) ->
   exists up d,
     0 <= d /\
     s = filter up "adelay" [AStr (str_of_int d ++ "|" ++ str_of_int d)%string] []) /\
  (In s (flat_map (nodes "atrim") (streams plan)) ->
   exists up start,
     PyFloat.lt 0 start = true /\
     s = filter up "atrim" [] [("start", AFloat (PyFloat.Double start))]).
Proof.
  intros H. split; intros Hin.
  - destruct (plan_sync_nodes "adelay" _ _ _ _ _ _ _ _ _ _ _ s (or_introl eq_refl) H Hin)
      as (a & sync & up & _ & Hsy & -> & Hc).
    change (String.eqb "adelay" "adelay") with true in Hc.
    change (String.eqb "atrim" "adelay") with false in Hc.
    cbn [andb orb] in Hc. rewrite orb_false_r in Hc.
    apply sync_step_inv in Hsy as [(_ & d & Hd & ->)|[(H0 & _)|(H0 & _)]];
      [|congruence..].
    exists up, d. split; [|reflexivity]. exact (delay_nonneg a d Hc Hd).
  - destruct (plan_sync_nodes "atrim" _ _ _ _ _ _ _ _ _ _ _ s (or_intror eq_refl) H Hin)
      as (a & sync & up & _ & Hsy & -> & Hc).
    change (String.eqb "adelay" "atrim") with false in Hc.
    change (String.eqb "atrim" "atrim") with true in Hc.
    cbn [andb orb] in Hc. apply andb_prop in Hc as [Hc1 Hc2].
    apply negb_true_iff in Hc1.
    apply sync_step_inv in Hsy as [(H0 & _)|[(_ & _ & ->)|(_ & H0 & _)]];
      [congruence| |congruence].
    exists up, (- a)%float. split; [|reflexivity]. apply trim_positive. exact Hc2.
Qed.

Lemma sync_arguments_are_valid_witness :
  exists t plan s,
    build_ffmpeg_cmd mkv_request 0 false false (PyFloat 0.0625%float) false false (PyInt 40)
      pi_world = (t, Ok plan) /\
    In s (flat_map (nodes "adelay") (streams plan)) /\
    exists up d,
      0 <= d /\
      s = filter up "adelay" [AStr (str_of_int d ++ "|" ++ str_of_int d)%string] [].
Proof.
  eexists. eexists. eexists.
  split; [reflexivity|].
  split; [left; reflexivity|].
  eapply (sync_arguments_are_valid pi_world mkv_request 0 false false (PyFloat 0.0625%float)
            false false (PyInt 40)).
  - reflexivity.
  - left. reflexivity.
Defined.

(** ** The files a plan reads *)

(** X11: a returned plan reads the source file and, when the request has
    one, the sidecar file, and nothing else.  Each of its input streams is
    audio stream 0 or audio stream 1 of the source, opened without options,
    the video of the source when there is no sidecar, or the video of the
    sidecar opened with [copyts]; the audio never comes from the sidecar. *)
Theorem plan_sources (w : world) (fr : file_resolver) (semitones : Z)
    (normalize_audio buffer : bool) (avsync : pyval) (cdg_pixel_scaling original_sound : bool)
    (volume : pyval) t (plan : output_stream) (s : stream) :
  build_ffmpeg_cmd fr semitones normalize_audio buffer avsync cdg_pixel_scaling
    original_sound volume w = (t, Ok plan) ->
  In s (flat_map inputs (streams plan)) ->
  (exists sel,
     s = InputStream (file_path fr) [] (Some sel) /\
     (sel = "a:0" \/ sel = "a:1" \/ (sel = "v" /\ cdg_file_path fr = None)))
  \/ (exists cdg,
        cdg_file_path fr = Some cdg /\
        s = InputStream cdg [("copyts", ANone)] (Some "v")).
Proof.
  intros H Hin.
  exact (plan_input_streams w fr semitones normalize_audio buffer avsync cdg_pixel_scaling
           original_sound volume t plan s H Hin).
Qed.

Lemma plan_sources_witness :
  exists t plan,
    build_ffmpeg_cmd cdg_request 0 true true (PyInt 0) true true (PyInt 40) desktop_world
      = (t, Ok plan) /\
    In (InputStream "/songs/tune.cdg" [("copyts", ANone)] (Some "v"))
      (flat_map inputs (streams plan)) /\
    ((exists sel,
        InputStream "/songs/tune.cdg" [("copyts", ANone)] (Some "v")
          = InputStream "/songs/tune.mp3" [] (Some sel) /\
        (sel = "a:0" \/ sel = "a:1"
         \/ (sel = "v" /\ Some "/songs/tune.cdg" = @None string)))
     \/ (exists cdg,
           Some "/songs/tune.cdg" = Some cdg /\
           InputStream "/songs/tune.cdg" [("copyts", ANone)] (Some "v")
             = InputStream cdg [("copyts", ANone)] (Some "v"))).
Proof.
  eexists. eexists.
  split; [reflexivity|].
  split; [vm_compute; auto 10|].
  eapply (plan_sources desktop_world cdg_request 0 true true (PyInt 0) true true (PyInt 40)).
  - reflexivity.
  - vm_compute. auto 10.
Defined.
